(** * steamtrades.py: the SteamTrades plugin of stlib-plugins

    A shallow embedding of [src/steamtrades.py] (login handshake, trade
    lookup and trade bump) together with the properties its specification
    states about it.

    Conventions.
    - A Python [str] is a sequence of Unicode code points: [list N].
    - A Python [dict] with string keys is a [gmap].
    - The coroutines talk to [self.session.http]; they are embedded as
      request trees ([prog]) that a server function interprets ([run]).
    - Library calls whose implementation is not part of the plugin
      (the HTML parser behind [BeautifulSoup], [json.loads], [int]) are
      fields of the class [Builtins]; the queries the plugin makes on the
      parsed tree ([find], [findAll], [.text], [tag[key]]) are defined on
      an explicit document tree. *)

From Stdlib Require Import ZArith Lia.
From stdpp Require Import base option list strings gmap.

Set Warnings "-register-all".

(** ** Python strings *)

Abbreviation str := (list N).

(** A literal of the source, character by character. *)
Definition lit (s : string) : str :=
  (λ a, Ascii.N_of_ascii a) <$> String.list_ascii_of_string s.
Arguments lit _%_string : simpl never.

(** A literal in which the apostrophe stands for the double quote, for
    the texts that contain double quotes. *)
Definition qlit (s : string) : str :=
  (λ c, if bool_decide (c = 39%N) then 34%N else c) <$> lit s.
Arguments qlit _%_string : simpl never.

Module PyStr.

(** [s.startswith(p)] *)
Fixpoint startswith (p s : str) : bool :=
  match p, s with
  | [], _ => true
  | _ :: _, [] => false
  | a :: p', b :: s' => bool_decide (a = b) && startswith p' s'
  end.

(** [needle in hay]: [needle] occurs in [hay] as a contiguous run. *)
Fixpoint contains (needle hay : str) : bool :=
  startswith needle hay ||
  match hay with
  | [] => false
  | _ :: hay' => contains needle hay'
  end.

(** [s.split(sep)] for a separator of one character: every occurrence
    of [sep] ends a piece, so two neighbouring separators enclose an
    empty piece and the result is never empty. [cur] is the piece being
    read, most recent character first. *)
Fixpoint split_from (sep : N) (cur : str) (s : str) : list str :=
  match s with
  | [] => [reverse cur]
  | c :: s' =>
      if bool_decide (c = sep) then reverse cur :: split_from sep [] s'
      else split_from sep (c :: cur) s'
  end.

Definition split (sep : N) (s : str) : list str := split_from sep [] s.

(** [s.replace(old, new)] for one-character [old] and [new]. *)
Definition replace (old new : N) (s : str) : str :=
  (λ c, if bool_decide (c = old) then new else c) <$> s.

(** [s[:n]] *)
Definition slice_to (n : nat) (s : str) : str := take n s.

(** [os.path.basename(p)] (posixpath): what follows the last slash. *)
Definition basename (p : str) : str :=
  default [] (last (split 47 p)).

(** The characters [str.isspace] and [str.split()] treat as blank
    ([Py_UNICODE_ISSPACE]): within ASCII the space, tab, line feed,
    vertical tab, form feed, carriage return and the four separators
    28..31; above it the next-line and no-break-space characters and the
    spaces and separators of Unicode. *)
Definition isspace (c : N) : bool :=
  bool_decide (c = 32 ∨ (9 ≤ c ∧ c ≤ 13) ∨ (28 ≤ c ∧ c ≤ 31) ∨
               c = 133 ∨ c = 160 ∨ c = 5760 ∨ (8192 ≤ c ∧ c ≤ 8202) ∨
               c = 8232 ∨ c = 8233 ∨ c = 8239 ∨ c = 8287 ∨ c = 12288)%N.

(** [s.split()] with no argument: pieces are maximal runs of
    non-blank characters. *)
Fixpoint split_blank_from (cur : str) (s : str) : list str :=
  match s with
  | [] => match cur with [] => [] | _ => [reverse cur] end
  | c :: s' =>
      if isspace c then
        match cur with
        | [] => split_blank_from [] s'
        | _ => reverse cur :: split_blank_from [] s'
        end
      else split_blank_from (c :: cur) s'
  end.

Definition split_blank (s : str) : list str := split_blank_from [] s.

(** [int(s)] on a string, base ten, as CPython reads it
    ([PyLong_FromUnicodeObject], then [PyLong_FromString]); [None]
    stands for [ValueError]. *)

(** [Py_ISSPACE]: the blanks of C. *)
Definition c_isspace (c : N) : bool :=
  bool_decide (c = 32 ∨ (9 ≤ c ∧ c ≤ 13))%N.

(** The zeros of the decimal digits of Unicode 14.0; the nine code
    points after a zero are its digits 1 to 9. *)
Definition decimal_zeros : list N :=
  [48; 1632; 1776; 1984; 2406; 2534; 2662; 2790; 2918; 3046; 3174; 3302;
   3430; 3558; 3664; 3792; 3872; 4160; 4240; 6112; 6160; 6470; 6608; 6784;
   6800; 6992; 7088; 7232; 7248; 42528; 43216; 43264; 43472; 43504; 43600;
   44016; 65296; 66720; 68912; 69734; 69872; 69942; 70096; 70384; 70736;
   70864; 71248; 71360; 71472; 71904; 72016; 72784; 73040; 73120; 92768;
   92864; 93008; 120782; 120792; 120802; 120812; 120822; 123200; 123632;
   125264; 130032]%N.

(** [Py_UNICODE_TODECIMAL]: the value of a decimal digit. *)
Definition to_decimal (c : N) : option N :=
  (λ found, c - found.2)%N <$>
  list_find (λ zero, zero ≤ c ∧ c < zero + 10)%N decimal_zeros.

(** [_PyUnicode_TransformDecimalAndSpaceToASCII] on a string that is not
    ASCII: a character below 127 stays, a blank becomes a space, a
    decimal digit becomes its ASCII digit, and at the first character
    that is none of these the text ends with a question mark. *)
Fixpoint transform (s : str) : str :=
  match s with
  | [] => []
  | c :: s' =>
      if bool_decide (c < 127)%N then c :: transform s'
      else if isspace c then 32%N :: transform s'
      else match to_decimal c with
           | Some d => (48 + d)%N :: transform s'
           | None => [63%N]
           end
  end.

(** An ASCII string is read as it is. *)
Definition to_ascii (s : str) : str :=
  if forallb (λ c, bool_decide (c < 128)%N) s then s else transform s.

Fixpoint skip_spaces (s : str) : str :=
  match s with
  | c :: s' => if c_isspace c then skip_spaces s' else s
  | [] => []
  end.

Definition digit (c : N) : option Z :=
  if bool_decide (48 ≤ c ∧ c ≤ 57)%N then Some (Z.of_N c - 48)%Z else None.

(** The run of digits and underscores at the start of [s]: the number
    of its digits, their value and the text after it. [prev] is the
    character before [s]; two underscores in a row, or one at the end of
    the run, are refused. *)
Fixpoint scan_digits (prev : N) (count : N) (acc : Z) (s : str)
  : option (N * Z * str) :=
  let stop := if bool_decide (prev = 95%N) then None
              else Some (count, acc, s) in
  match s with
  | c :: s' =>
      if bool_decide (c = 95%N) then
        if bool_decide (prev = 95%N) then None
        else scan_digits c count acc s'
      else
        match digit c with
        | Some v => scan_digits c (count + 1)%N (acc * 10 + v)%Z s'
        | None => stop
        end
  | [] => stop
  end.

(** [sys.get_int_max_str_digits()] as the interpreter starts. *)
Definition max_str_digits : N := 4300.

(** Blanks, one sign, digits with single underscores between them,
    blanks, and nothing more. *)
Definition parse_int (s : str) : option Z :=
  let '(negative, number) :=
    match skip_spaces (to_ascii s) with
    | 43%N :: r => (false, r)
    | 45%N :: r => (true, r)
    | r => (false, r)
    end in
  match number with
  | 95%N :: _ => None
  | _ =>
      '(count, value, rest) ← scan_digits 0 0 0 number;
      if bool_decide (count = 0 ∨ max_str_digits < count)%N then None
      else
        match skip_spaces rest with
        | [] => Some (if negative then - value else value)%Z
        | _ :: _ => None
        end
  end.

End PyStr.

(** ** Exceptions

    The exception classes [steamtrades.py] declares, [login.LoginError]
    which four of them extend, and the built-in exceptions the failing
    lookups of the code raise. Each carries what the Python object
    carries: its message and, for the two trade errors, the fields the
    constructor copies from the [TradeInfo]. *)

(** A subscript: [d['code']] or [l[0]]. *)
Inductive subscript :=
| SubStr (s : str)
| SubInt (i : Z).

Inductive exn :=
| LoginError (message : str)
| UserLevelError (message : str)
| UserSuspended (message : str)
| TooFast (message : str)
| PrivateProfile (message : str)
| TradeClosedError (id title : str) (message : str)
| TradeNotReadyError (id title : str) (time_left : Z) (message : str)
| NoTradesError (message : str)
| KeyError (key : subscript)
| IndexError
| TypeError
| AttributeError
| ValueError
| JSONDecodeError.

(** [isinstance(e, login.LoginError)]: the class itself and its four
    subclasses. *)
Definition is_login_error (e : exn) : bool :=
  match e with
  | LoginError _ | UserLevelError _ | UserSuspended _ | TooFast _
  | PrivateProfile _ => true
  | _ => false
  end.

(** The failures the plugin classifies itself, as opposed to the
    built-in exceptions that escape from a failed lookup or parse. *)
Definition classified (e : exn) : bool :=
  match e with
  | LoginError _ | UserLevelError _ | UserSuspended _ | TooFast _
  | PrivateProfile _ | TradeClosedError _ _ _ | TradeNotReadyError _ _ _ _
  | NoTradesError _ => true
  | KeyError _ | IndexError | TypeError | AttributeError | ValueError
  | JSONDecodeError => false
  end.

(** The result of running Python code: a value or a raised exception. *)
Inductive result (A : Type) :=
| Returned (a : A)
| Raised (e : exn).
Arguments Returned {A} a.
Arguments Raised {A} e.

(** ** JSON values and [json.loads] *)

Module Json.

(** What [json.loads] returns: [None], [bool], [int], [float], [str],
    [list], [dict]. A float is kept as the text it was read from; a dict
    is kept as its members in the order read, the last one of a repeated
    key being the one a lookup sees. *)
Inductive json :=
| JNull
| JBool (b : bool)
| JInt (z : Z)
| JFloat (lexeme : str)
| JStr (s : str)
| JArr (items : list json)
| JObj (members : list (str * json)).

(** [d[k]] on a dict read from JSON. *)
Fixpoint member (k : str) (members : list (str * json)) : option json :=
  match members with
  | [] => None
  | (k', v) :: rest =>
      match member k rest with
      | Some w => Some w
      | None => if bool_decide (k' = k) then Some v else None
      end
  end.

(** [v[k]]: subscription of a decoded value. A dict is searched for a
    string key (its keys are all strings, so an integer key is missing);
    a list or a string is indexed by an integer, a negative one counting
    from the end, and refuses a string; the other values are not
    subscriptable. *)
Definition getitem (v : json) (k : subscript) : result json :=
  match v, k with
  | JObj members, SubStr s =>
      match member s members with
      | Some w => Returned w
      | None => Raised (KeyError k)
      end
  | JObj _, SubInt _ => Raised (KeyError k)
  | JArr items, SubInt i =>
      if bool_decide (0 ≤ i)%Z then
        match items !! Z.to_nat i with
        | Some w => Returned w
        | None => Raised IndexError
        end
      else
        match reverse items !! Z.to_nat (- i - 1) with
        | Some w => Returned w
        | None => Raised IndexError
        end
  | JStr s, SubInt i =>
      if bool_decide (0 ≤ i)%Z then
        match s !! Z.to_nat i with
        | Some c => Returned (JStr [c])
        | None => Raised IndexError
        end
      else
        match reverse s !! Z.to_nat (- i - 1) with
        | Some c => Returned (JStr [c])
        | None => Raised IndexError
        end
  | _, _ => Raised TypeError
  end.

(** [v.split(' ')]: only a string has the method. *)
Definition split_method (sep : N) (v : json) : result (list str) :=
  match v with
  | JStr s => Returned (PyStr.split sep s)
  | _ => Raised AttributeError
  end.

(** *** The decoder

    [json.loads] as CPython's scanner reads it (strict mode): blanks are
    space, tab, line feed and carriage return; a string may not hold a raw
    control character; [NaN], [Infinity] and [-Infinity] are accepted; text
    after the value is an error, as is a leading byte order mark. *)

Fixpoint skip_ws (s : str) : str :=
  match s with
  | c :: s' =>
      if bool_decide (c = 32 ∨ c = 9 ∨ c = 10 ∨ c = 13)%N then skip_ws s' else s
  | [] => []
  end.

Definition hex (c : N) : option N :=
  if bool_decide (48 ≤ c ∧ c ≤ 57)%N then Some (c - 48)%N
  else if bool_decide (97 ≤ c ∧ c ≤ 102)%N then Some (c - 87)%N
  else if bool_decide (65 ≤ c ∧ c ≤ 70)%N then Some (c - 55)%N
  else None.

Definition hex4 (a b c d : N) : option N :=
  x ← hex a; y ← hex b; z ← hex c; w ← hex d;
  Some (((x * 16 + y) * 16 + z) * 16 + w)%N.

(** The character a one-letter escape stands for. *)
Definition unescape (c : N) : option N :=
  if bool_decide (c = 34 ∨ c = 92 ∨ c = 47)%N then Some c
  else if bool_decide (c = 98)%N then Some 8%N
  else if bool_decide (c = 102)%N then Some 12%N
  else if bool_decide (c = 110)%N then Some 10%N
  else if bool_decide (c = 114)%N then Some 13%N
  else if bool_decide (c = 116)%N then Some 9%N
  else None.

Definition high_surrogate (u : N) : bool := bool_decide (55296 ≤ u ∧ u ≤ 56319)%N.
Definition low_surrogate (u : N) : bool := bool_decide (56320 ≤ u ∧ u ≤ 57343)%N.
Definition join_surrogates (hi lo : N) : N :=
  (65536 + ((hi - 55296) * 1024 + (lo - 56320)))%N.

(** Reads a string body up to its closing quote; [acc] holds the
    characters read, most recent first. A high surrogate escape followed
    by a low surrogate escape yields one character. *)
Fixpoint scanstring (acc : str) (s : str) : option (str * str) :=
  match s with
  | [] => None
  | c :: r =>
      if bool_decide (c = 34)%N then Some (reverse acc, r)
      else if bool_decide (c = 92)%N then
        match r with
        | [] => None
        | e :: r1 =>
            if bool_decide (e = 117)%N then
              match r1 with
              | h1 :: h2 :: h3 :: h4 :: r2 =>
                  match hex4 h1 h2 h3 h4 with
                  | None => None
                  | Some u =>
                      match r2 with
                      | b :: v :: l1 :: l2 :: l3 :: l4 :: r3 =>
                          if high_surrogate u && bool_decide (b = 92)%N
                             && bool_decide (v = 117)%N then
                            match hex4 l1 l2 l3 l4 with
                            | None => None
                            | Some u2 =>
                                if low_surrogate u2
                                then scanstring (join_surrogates u u2 :: acc) r3
                                else scanstring (u :: acc) r2
                            end
                          else scanstring (u :: acc) r2
                      | _ => scanstring (u :: acc) r2
                      end
                  end
              | _ => None
              end
            else
              match unescape e with
              | Some x => scanstring (x :: acc) r1
              | None => None
              end
        end
      else if bool_decide (c < 32)%N then None
      else scanstring (c :: acc) r
  end.

Definition isdigit (c : N) : bool := bool_decide (48 ≤ c ∧ c ≤ 57)%N.

(** The longest run of digits at the head of [s], and what follows. *)
Fixpoint span_digits (s : str) : str * str :=
  match s with
  | c :: s' =>
      if isdigit c then let '(ds, rest) := span_digits s' in (c :: ds, rest)
      else ([], s)
  | [] => ([], [])
  end.

(** The value of a run of digits. *)
Definition decimal (ds : str) : Z :=
  foldl (λ acc c, acc * 10 + (Z.of_N c - 48))%Z 0%Z ds.

(** The integer part of a number: [0], or a non-zero digit and the
    digits after it. *)
Definition scan_integer (s : str) : option (str * str) :=
  match s with
  | c :: s' =>
      if bool_decide (c = 48)%N then Some ([c], s')
      else if isdigit c then let '(ds, rest) := span_digits s' in Some (c :: ds, rest)
      else None
  | [] => None
  end.

(** A fraction [.ddd], when a digit follows the point. *)
Definition scan_fraction (s : str) : str * str :=
  match s with
  | c :: s' =>
      if bool_decide (c = 46)%N then
        match span_digits s' with
        | ([], _) => ([], s)
        | (ds, rest) => (c :: ds, rest)
        end
      else ([], s)
  | [] => ([], [])
  end.

(** An exponent [e+dd], when a digit follows the optional sign. *)
Definition scan_exponent (s : str) : str * str :=
  match s with
  | c :: s' =>
      if bool_decide (c = 101 ∨ c = 69)%N then
        match s' with
        | g :: s'' =>
            if bool_decide (g = 43 ∨ g = 45)%N then
              match span_digits s'' with
              | ([], _) => ([], s)
              | (ds, rest) => (c :: g :: ds, rest)
              end
            else
              match span_digits s' with
              | ([], _) => ([], s)
              | (ds, rest) => (c :: ds, rest)
              end
        | [] => ([], s)
        end
      else ([], s)
  | [] => ([], [])
  end.

(** A number: an [int] when it has neither fraction nor exponent. *)
Definition scan_number (s : str) : option (json * str) :=
  let '(neg, s1) :=
    match s with
    | c :: s' => if bool_decide (c = 45)%N then (true, s') else (false, s)
    | [] => (false, s)
    end in
  '(ds, s2) ← scan_integer s1;
  let '(frac, s3) := scan_fraction s2 in
  let '(ex, s4) := scan_exponent s3 in
  match frac, ex with
  | [], [] => Some (JInt (if neg : bool then - decimal ds else decimal ds)%Z, s4)
  | _, _ => Some (JFloat ((if neg : bool then [45%N] else []) ++ ds ++ frac ++ ex), s4)
  end.

(** What one scanning step gives: a value and the text after it, a
    syntax error, or the recursion budget used up. *)
Inductive scan :=
| Scanned (v : json) (rest : str)
| Invalid
| NoFuel.

(** A value whose first character is not a quote, bracket or brace. *)
Definition scan_atom (s : str) : scan :=
  if PyStr.startswith (lit "null") s then Scanned JNull (drop 4 s)
  else if PyStr.startswith (lit "true") s then Scanned (JBool true) (drop 4 s)
  else if PyStr.startswith (lit "false") s then Scanned (JBool false) (drop 5 s)
  else if PyStr.startswith (lit "NaN") s then Scanned (JFloat (lit "NaN")) (drop 3 s)
  else if PyStr.startswith (lit "Infinity") s
       then Scanned (JFloat (lit "Infinity")) (drop 8 s)
  else if PyStr.startswith (lit "-Infinity") s
       then Scanned (JFloat (lit "-Infinity")) (drop 9 s)
  else
    match scan_number s with
    | Some (v, rest) => Scanned v rest
    | None => Invalid
    end.

(** [scan_once] reads one value at the head of [s]; [scan_items] reads
    the items of an array from the first item on, [scan_members] the
    members of an object from the quote of the first key on. [acc] holds
    what the array or object has so far, most recent first. *)
Fixpoint scan_once (fuel : nat) (s : str) : scan :=
  match fuel with
  | O => NoFuel
  | S fuel =>
      match s with
      | [] => Invalid
      | c :: r =>
          if bool_decide (c = 34)%N then
            match scanstring [] r with
            | Some (v, rest) => Scanned (JStr v) rest
            | None => Invalid
            end
          else if bool_decide (c = 91)%N then
            match skip_ws r with
            | d :: r' =>
                if bool_decide (d = 93)%N then Scanned (JArr []) r'
                else scan_items fuel [] (d :: r')
            | [] => Invalid
            end
          else if bool_decide (c = 123)%N then
            match skip_ws r with
            | d :: r' =>
                if bool_decide (d = 125)%N then Scanned (JObj []) r'
                else scan_members fuel [] (d :: r')
            | [] => Invalid
            end
          else scan_atom s
      end
  end
with scan_items (fuel : nat) (acc : list json) (s : str) : scan :=
  match fuel with
  | O => NoFuel
  | S fuel =>
      match scan_once fuel s with
      | Scanned v rest =>
          match skip_ws rest with
          | d :: r =>
              if bool_decide (d = 93)%N then Scanned (JArr (reverse (v :: acc))) r
              else if bool_decide (d = 44)%N
                   then scan_items fuel (v :: acc) (skip_ws r)
              else Invalid
          | [] => Invalid
          end
      | Invalid => Invalid
      | NoFuel => NoFuel
      end
  end
with scan_members (fuel : nat) (acc : list (str * json)) (s : str) : scan :=
  match fuel with
  | O => NoFuel
  | S fuel =>
      match s with
      | q :: r =>
          if bool_decide (q = 34)%N then
            match scanstring [] r with
            | Some (k, rest) =>
                match skip_ws rest with
                | colon :: r1 =>
                    if bool_decide (colon = 58)%N then
                      match scan_once fuel (skip_ws r1) with
                      | Scanned v rest1 =>
                          match skip_ws rest1 with
                          | d :: r2 =>
                              if bool_decide (d = 125)%N
                              then Scanned (JObj (reverse ((k, v) :: acc))) r2
                              else if bool_decide (d = 44)%N
                              then scan_members fuel ((k, v) :: acc) (skip_ws r2)
                              else Invalid
                          | [] => Invalid
                          end
                      | Invalid => Invalid
                      | NoFuel => NoFuel
                      end
                    else Invalid
                | [] => Invalid
                end
            | None => Invalid
            end
          else Invalid
      | [] => Invalid
      end
  end.

(** [json.loads(s)]; [None] stands for [JSONDecodeError]. The budget is
    more than any text of that length needs (see [loads_budget]). *)
Definition loads (s : str) : option json :=
  match s with
  | 65279%N :: _ => None
  | _ =>
      match scan_once (2 * length s + 2) (skip_ws s) with
      | Scanned v rest =>
          match skip_ws rest with
          | [] => Some v
          | _ :: _ => None
          end
      | Invalid | NoFuel => None
      end
  end.

End Json.

(** ** The parsed page: what the plugin asks of BeautifulSoup *)

Module Bs4.

(** A node of the tree: a run of text or a tag. [classes] is the
    [class] attribute, which BeautifulSoup keeps as the list of its
    names; [attrs] holds the other attributes, which are plain strings
    ([name], [value] and [href] are the ones the plugin reads). The
    object [BeautifulSoup(...)] returns is the tag at the root. *)
Inductive node :=
| NavigableString (s : str)
| Tag (name : str) (classes : list str) (attrs : gmap str str)
      (contents : list node).

(** The nodes below [n] in document order. *)
Fixpoint descendants (n : node) : list node :=
  match n with
  | NavigableString _ => []
  | Tag _ _ _ contents =>
      (fix below (l : list node) : list node :=
         match l with
         | [] => []
         | c :: l' => c :: descendants c ++ below l'
         end) contents
  end.

(** Whether a node is a tag called [name] which, when [class_] is given,
    has that class among its classes. *)
Definition matches (name : str) (class_ : option str) (n : node) : bool :=
  match n with
  | NavigableString _ => false
  | Tag name' classes _ _ =>
      bool_decide (name' = name) &&
      match class_ with
      | None => true
      | Some c => bool_decide (c ∈ classes)
      end
  end.

(** [n.findAll(name, class_=...)]: the matching descendants in document
    order. *)
Definition findAll (name : str) (class_ : option str) (n : node) : list node :=
  filter (λ d, matches name class_ d) (descendants n).

(** [n.find(name, class_=...)]: the first match or [None]. *)
Definition find (name : str) (class_ : option str) (n : node) : option node :=
  head (findAll name class_ n).

(** [n.text]: the text runs below [n], joined. *)
Definition text (n : node) : str :=
  match n with
  | NavigableString s => s
  | Tag _ _ _ _ =>
      mjoin (omap (λ d, match d with
                        | NavigableString s => Some s
                        | Tag _ _ _ _ => None
                        end) (descendants n))
  end.

(** [n[key]]; [None] stands for [KeyError]. *)
Definition getitem (n : node) (key : str) : option str :=
  match n with
  | NavigableString _ => None
  | Tag _ _ attrs _ => attrs !! key
  end.

End Bs4.

(** ** Library calls the plugin relies on *)

Class Builtins := {
  (** [BeautifulSoup(markup, 'html.parser')] *)
  BeautifulSoup : str → Bs4.node;
  (** [json.loads(s)]; [None] when it raises [JSONDecodeError] *)
  json_loads : str → option Json.json;
  (** [int(s)]; [None] when it raises [ValueError] *)
  int : str → option Z;
}.

(** ** The HTTP session and the coroutines' control *)

Inductive method := GET | POST.

#[export] Instance method_eq_dec : EqDecision method.
Proof. solve_decision. Defined.

(** A call of [self.session.http.get(url, headers=...)] or
    [self.session.http.post(url, headers=..., data=...)]. *)
Record request := Request {
  req_method : method;
  req_url : str;
  req_headers : gmap str str;
  req_data : option (gmap str str);
}.

(** What the code reads of a response: [response.url.path] and
    [await response.text()]. *)
Record response := Response {
  url_path : str;
  resp_text : str;
}.

(** A coroutine: it returns, raises, or awaits the response to a request
    and goes on from it. *)
Inductive prog (A : Type) :=
| Ret (a : A)
| Raise (e : exn)
| Await (r : request) (k : response → prog A).
Arguments Ret {A} a.
Arguments Raise {A} e.
Arguments Await {A} r k.

Fixpoint prog_bind {A B : Type} (f : A → prog B) (p : prog A) : prog B :=
  match p with
  | Ret a => f a
  | Raise e => Raise e
  | Await r k => Await r (λ x, prog_bind f (k x))
  end.

#[export] Instance prog_mbind : MBind prog := @prog_bind.
#[export] Instance prog_mret : MRet prog := @Ret.

(** [try: body except E: handler], where [handler e] is [None] for an
    exception the clause does not catch. *)
Fixpoint try_except {A : Type} (body : prog A) (handler : exn → option (prog A))
  : prog A :=
  match body with
  | Ret a => Ret a
  | Raise e => match handler e with Some h => h | None => Raise e end
  | Await r k => Await r (λ x, try_except (k x) handler)
  end.

(** [for x in xs: body], threading the variables the body assigns. *)
Fixpoint for_each {X S : Type} (xs : list X) (body : X → S → prog S) (s : S)
  : prog S :=
  match xs with
  | [] => Ret s
  | x :: xs' => s' ← body x s; for_each xs' body s'
  end.

Definition http_get (url : str) (headers : gmap str str) : prog response :=
  Await (Request GET url headers None) Ret.

Definition http_post (url : str) (headers : gmap str str)
    (data : option (gmap str str)) : prog response :=
  Await (Request POST url headers data) Ret.

(** Lookups that raise. *)
Definition tag_item (t : Bs4.node) (key : str) : prog str :=
  match Bs4.getitem t key with
  | Some v => Ret v
  | None => Raise (KeyError (SubStr key))
  end.

Definition dict_item {V : Type} (d : gmap str V) (key : str) : prog V :=
  match d !! key with
  | Some v => Ret v
  | None => Raise (KeyError (SubStr key))
  end.

Definition list_item {V : Type} (l : list V) (i : nat) : prog V :=
  match l !! i with
  | Some v => Ret v
  | None => Raise IndexError
  end.

Definition of_result {A : Type} (r : result A) : prog A :=
  match r with
  | Returned a => Ret a
  | Raised e => Raise e
  end.

Definition or_raise {A : Type} (o : option A) (e : exn) : prog A :=
  match o with
  | Some a => Ret a
  | None => Raise e
  end.

(** [form.findAll('input')] where [form] may be [None], which has no
    such attribute. *)
Definition findAll_inputs (form : option Bs4.node) : prog (list Bs4.node) :=
  match form with
  | Some f => Ret (Bs4.findAll (lit "input") None f)
  | None => Raise AttributeError
  end.

(** [t and needle in t.text] for the result [t] of a [find]. *)
Definition mentions (t : option Bs4.node) (needle : str) : bool :=
  match t with
  | Some t => PyStr.contains needle (Bs4.text t)
  | None => false
  end.

(** A site: the response to a request, given the requests made before
    it (oldest first). *)
Definition site := list request → request → response.

(** Runs a coroutine against a server: the requests made, in order, and
    the outcome. *)
Fixpoint run {A : Type} (srv : site) (sent : list request) (p : prog A)
  : list request * result A :=
  match p with
  | Ret a => (sent, Returned a)
  | Raise e => (sent, Raised e)
  | Await r k => run srv (sent ++ [r]) (k (srv sent r))
  end.

(** ** steamtrades.py *)

Record TradeInfo := mkTradeInfo {
  id : str;
  title : str;
  html : str;
}.

(** The attributes [SteamTrades.__init__] sets, and [self.headers]. *)
Record SteamTrades := {
  server : str;
  bump_script : str;
  login_page : str;
  openid_url : str;
  headers : gmap str str;
}.

(** The defaults of [__init__]. *)
Definition default_plugin (headers : gmap str str) : SteamTrades := {|
  server := lit "https://www.steamtrades.com";
  bump_script := lit "ajax.php";
  login_page := lit "https://steamtrades.com/?login";
  openid_url := lit "https://steamcommunity.com/openid";
  headers := headers;
|}.

(** A value of the dict [do_login] returns: [True] or a string. *)
Inductive pyval :=
| PyBool (b : bool)
| PyStr (s : str).

Section plugin.
Context {lib : Builtins}.

(** The body of the loop of [do_login]:
    [with contextlib.suppress(KeyError): data[input_['name']] = input_['value']].
    The right-hand side is evaluated before the subscript. *)
Definition login_input (input_ : Bs4.node) (data : gmap str str)
  : prog (gmap str str) :=
  try_except
    (value ← tag_item input_ (lit "value");
     name ← tag_item input_ (lit "name");
     Ret (<[name := value]> data))
    (λ e, match e with KeyError _ => Some (Ret data) | _ => None end).

(** [json_data.update(data)]: the entries of [data] replace those of
    [json_data] that have the same key. *)
Definition update (json_data : gmap str pyval) (data : gmap str str)
  : gmap str pyval :=
  (PyStr <$> data) ∪ json_data.

Definition do_login (self : SteamTrades) : prog (gmap str pyval) :=
  response ← http_get (login_page self) (headers self);
  let html := BeautifulSoup (resp_text response) in
  let form := Bs4.find (lit "form") None html in
  match form with
  | None =>
      let nav_button := Bs4.find (lit "a") (Some (lit "nav__button")) html in
      let warning := Bs4.find (lit "div") (Some (lit "notification--warning")) html in
      if mentions nav_button (lit "Suspensions")
      then Raise (UserSuspended (lit "Unable to login, user is suspended."))
      else if mentions warning (lit "Please wait")
      then Raise (TooFast (lit "Wait 15 seconds before try again."))
      else if mentions warning (lit "public Steam profile")
      then Raise (PrivateProfile (lit "Your profile must be public to use steamtrades."))
      else Raise (LoginError (lit "Unable to log-in on steamtrades"))
  | Some form =>
      data ← for_each (Bs4.findAll (lit "input") None form) login_input ∅;
      response ← http_post (openid_url self ++ lit "/login") (headers self)
                   (Some data);
      let html := BeautifulSoup (resp_text response) in
      let avatar := Bs4.find (lit "a") (Some (lit "nav_avatar")) html in
      let nav_button := Bs4.find (lit "a") (Some (lit "nav__button")) html in
      let notification := Bs4.find (lit "div") (Some (lit "notification")) html in
      let warning := Bs4.find (lit "div") (Some (lit "notification--warning")) html in
      json_data ←
        match avatar with
        | Some avatar =>
            if mentions nav_button (lit "Suspensions")
            then Raise (UserSuspended (lit "Unable to login, user is suspended."))
            else
              href ← tag_item avatar (lit "href");
              steamid ← list_item (PyStr.split 47 href) 2;
              Ret (<[lit "steamid" := PyStr steamid]>
                     {[ lit "success" := PyBool true ]})
        | None =>
            if mentions notification (lit "Steam level")
            then Raise (UserLevelError (lit "Steam level must be greater to 1."))
            else if mentions warning (lit "public Steam profile")
            then Raise (PrivateProfile (lit "Your profile must be public to use steamtrades."))
            else Raise (LoginError (lit "Unable to log-in on steamtrades"))
        end;
      Ret (update json_data data)
  end.

Definition get_trade_info (self : SteamTrades) (trade_id : str) : prog TradeInfo :=
  response ← http_get (server self ++ lit "/trade/" ++ trade_id ++ lit "/")
               (headers self);
  id_ ← list_item (PyStr.split 47 (url_path response)) 2;
  let title :=
    PyStr.slice_to 22 (PyStr.replace 45 32 (PyStr.basename (url_path response)))
    ++ lit "..." in
  let html := resp_text response in
  Ret (mkTradeInfo id_ title html).

(** The body of the loop of [bump]: [data[input_['name']] = input_['value']]. *)
Definition bump_input (input_ : Bs4.node) (data : gmap str str)
  : prog (gmap str str) :=
  value ← tag_item input_ (lit "value");
  name ← tag_item input_ (lit "name");
  Ret (<[name := value]> data).

Definition bump (self : SteamTrades) (trade_info : TradeInfo) : prog bool :=
  let soup := BeautifulSoup (html trade_info) in
  match Bs4.find (lit "a") (Some (lit "nav_avatar")) soup with
  | None => Raise (LoginError (lit "User is not logged in"))
  | Some _ =>
  match Bs4.find (lit "div") (Some (lit "js_trade_open")) soup with
  | Some _ =>
      Raise (TradeClosedError (id trade_info) (title trade_info)
               (lit "Trade " ++ id trade_info ++ lit " is closed"))
  | None =>
    let form := Bs4.find (lit "form") None soup in
    data ←
      try_except
        (inputs ← findAll_inputs form;
         for_each inputs bump_input ∅)
        (λ e, match e with
              | AttributeError =>
                  Some (Raise (NoTradesError (lit "No trades available to bump")))
              | _ => None
              end);
    code ← dict_item data (lit "code");
    xsrf_token ← dict_item data (lit "xsrf_token");
    let payload : gmap str str :=
      <[lit "do" := lit "trade_bump"]>
        (<[lit "xsrf_token" := xsrf_token]> {[ lit "code" := code ]}) in
    response ← http_post (server self ++ lit "/" ++ bump_script self)
                 (headers self) (Some payload);
    let html := resp_text response in
    if PyStr.contains (lit "Please wait another") html
    then
      decoded ← or_raise (json_loads html) JSONDecodeError;
      heading ← of_result (Json.getitem decoded (SubStr (lit "popup_heading_h2")));
      error ← of_result (Json.getitem heading (SubInt 0));
      tokens ← of_result (Json.split_method 32 error);
      token ← list_item tokens 3;
      minutes_left ← or_raise (int token) ValueError;
      Raise (TradeNotReadyError (id trade_info) (title trade_info) minutes_left
               (lit "Trade " ++ id trade_info ++ lit " is not ready"))
    else
      result ← http_post (server self ++ lit "/trades") (headers self) None;
      let text := resp_text result in
      if PyStr.contains (id trade_info) text then Ret true else Ret false
  end
  end.

End plugin.

(** ** The specification's vocabulary *)

(** The page below [soup] has a tag called [name] that, when [class_]
    is given, has that class. *)
Definition has_element (name : str) (class_ : option str) (soup : Bs4.node)
  : Prop :=
  ∃ d, d ∈ Bs4.descendants soup ∧ Bs4.matches name class_ d = true.

(** The element a [find] returned exists and its text contains
    [needle]. *)
Definition shows (found : option Bs4.node) (needle : str) : Prop :=
  ∃ element, found = Some element ∧
             PyStr.contains needle (Bs4.text element) = true.

(** Some tag called [name] with the class [class_] below [soup], the
    first or a later one, has a text that contains [needle]. *)
Definition some_shows (name : str) (class_ : option str) (soup : Bs4.node)
    (needle : str) : Prop :=
  ∃ element, element ∈ Bs4.descendants soup ∧
             Bs4.matches name class_ element = true ∧
             PyStr.contains needle (Bs4.text element) = true.

(** The fields a form submits: each input that has both a name and a
    value sets its name to its value, in document order. *)
Definition form_fields (inputs : list Bs4.node) : gmap str str :=
  foldl (λ data input_,
           match Bs4.getitem input_ (lit "value"), Bs4.getitem input_ (lit "name") with
           | Some value, Some name => <[name := value]> data
           | _, _ => data
           end) ∅ inputs.

(** The value a form gives the field [k]: that of the last input called
    [k] among those that have a value. *)
Definition field_value (k : str) (inputs : list Bs4.node) : option str :=
  last (omap (λ input_,
                match Bs4.getitem input_ (lit "name"), Bs4.getitem input_ (lit "value") with
                | Some name, Some value =>
                    if bool_decide (name = k) then Some value else None
                | _, _ => None
                end) inputs).

(** An input with both a name and a value. *)
Definition complete_input (input_ : Bs4.node) : Prop :=
  is_Some (Bs4.getitem input_ (lit "name")) ∧
  is_Some (Bs4.getitem input_ (lit "value")).

(** The stored page of a trade lets [bump] collect the fields [data]: it
    shows the avatar link and no [js_trade_open] marker, and it has a form
    whose inputs all have a name and a value. *)
Definition bump_collects {lib : Builtins} (trade_info : TradeInfo)
    (data : gmap str str) : Prop :=
  let soup := BeautifulSoup (html trade_info) in
  is_Some (Bs4.find (lit "a") (Some (lit "nav_avatar")) soup) ∧
  Bs4.find (lit "div") (Some (lit "js_trade_open")) soup = None ∧
  ∃ form,
    Bs4.find (lit "form") None soup = Some form ∧
    Forall complete_input (Bs4.findAll (lit "input") None form) ∧
    data = form_fields (Bs4.findAll (lit "input") None form).

(** The request by which [bump] submits the tokens [code] and
    [xsrf_token]. *)
Definition bump_request (self : SteamTrades) (code xsrf_token : str) : request :=
  Request POST (server self ++ lit "/" ++ bump_script self) (headers self)
    (Some (<[lit "do" := lit "trade_bump"]>
             (<[lit "xsrf_token" := xsrf_token]> {[ lit "code" := code ]}))).

(** The minutes a cooldown envelope announces: the body is a JSON object
    whose [popup_heading_h2] is an array that starts with a string, and the
    fourth piece of that string, cut at each space, is an integer. *)
Definition envelope_minutes {lib : Builtins} (body : str) : option Z :=
  decoded ← json_loads body;
  match decoded with
  | Json.JObj members =>
      match Json.member (lit "popup_heading_h2") members with
      | Some (Json.JArr (Json.JStr heading :: _)) =>
          token ← PyStr.split 32 heading !! 3; int token
      | _ => None
      end
  | _ => None
  end.

(** The same with the heading cut at runs of blanks instead, which is
    how the wording "whitespace-separated token" reads. *)
Definition envelope_minutes_blank {lib : Builtins} (body : str) : option Z :=
  decoded ← json_loads body;
  match decoded with
  | Json.JObj members =>
      match Json.member (lit "popup_heading_h2") members with
      | Some (Json.JArr (Json.JStr heading :: _)) =>
          token ← PyStr.split_blank heading !! 3; int token
      | _ => None
      end
  | _ => None
  end.

(** Lines 170 and 171 of [bump], which decode the cooldown notice, as a
    computation of their own: each step returns or raises. *)
Definition read_cooldown {lib : Builtins} (html : str) : result Z :=
  match json_loads html with
  | None => Raised JSONDecodeError
  | Some decoded =>
      match Json.getitem decoded (SubStr (lit "popup_heading_h2")) with
      | Raised e => Raised e
      | Returned heading =>
          match Json.getitem heading (SubInt 0) with
          | Raised e => Raised e
          | Returned error =>
              match Json.split_method 32 error with
              | Raised e => Raised e
              | Returned tokens =>
                  match tokens !! 3 with
                  | None => Raised IndexError
                  | Some token =>
                      match int token with
                      | None => Raised ValueError
                      | Some minutes_left => Returned minutes_left
                      end
                  end
              end
          end
      end
  end.

(** ** Sample pages and servers

    Small pages of the kinds the site serves, each with the tree
    [html.parser] builds for it, and servers that answer from a table.
    The concrete statements below are evaluated on them. *)

Module Samples.
Import Bs4.

Definition document (contents : list node) : node :=
  Tag (lit "[document]") [] ∅ contents.

Definition hidden_input (name value : string) : node :=
  Tag (lit "input") []
    (list_to_map [(lit "type", lit "hidden"); (lit "name", lit name);
                  (lit "value", lit value)]) [].
Arguments hidden_input (name value)%_string.

Definition avatar_link : node :=
  Tag (lit "a") [lit "nav_avatar"]
    {[ lit "href" := lit "/user/76561198000000001" ]} [].

Definition suspensions_badge : node :=
  Tag (lit "a") [lit "nav__button"] {[ lit "href" := lit "/suspensions" ]}
    [NavigableString (lit "Suspensions")].

Definition messages_badge : node :=
  Tag (lit "a") [lit "nav__button"] {[ lit "href" := lit "/messages" ]}
    [NavigableString (lit "Messages")].

Definition warning_banner (message : string) : node :=
  Tag (lit "div") [lit "notification"; lit "notification--warning"] ∅
    [NavigableString (lit message)].
Arguments warning_banner message%_string.

(** Login pages. *)
Definition login_form_html : str := qlit
  "<form action='https://steamcommunity.com/openid/login' method='post'><input type='hidden' name='openid.mode' value='checkid_setup'><input type='hidden' name='nonce' value='first'><input type='hidden' name='nonce' value='second'><input type='submit'></form>".

Definition login_form_tree : node := document
  [Tag (lit "form") []
     (list_to_map [(lit "action", lit "https://steamcommunity.com/openid/login");
                   (lit "method", lit "post")])
     [hidden_input "openid.mode" "checkid_setup";
      hidden_input "nonce" "first";
      hidden_input "nonce" "second";
      Tag (lit "input") [] {[ lit "type" := lit "submit" ]} []]].

Definition suspended_html : str := qlit
  "<a class='nav__button' href='/suspensions'>Suspensions</a>".
Definition suspended_tree : node := document [suspensions_badge].

Definition too_fast_html : str := qlit
  "<div class='notification notification--warning'>Please wait 15 seconds. A public Steam profile is required.</div>".
Definition too_fast_tree : node := document
  [warning_banner "Please wait 15 seconds. A public Steam profile is required."].

Definition private_html : str := qlit
  "<div class='notification notification--warning'>A public Steam profile is required.</div>".
Definition private_tree : node := document
  [warning_banner "A public Steam profile is required."].

(** Pages on which the badge or the banner with the telling text is
    not the first of its kind. *)
Definition second_badge_html : str := qlit
  "<a class='nav__button' href='/messages'>Messages</a><a class='nav__button' href='/suspensions'>Suspensions</a>".
Definition second_badge_tree : node :=
  document [messages_badge; suspensions_badge].

Definition second_banner_html : str := qlit
  "<div class='notification notification--warning'>Welcome back.</div><div class='notification notification--warning'>Please wait 15 seconds.</div>".
Definition second_banner_tree : node := document
  [warning_banner "Welcome back."; warning_banner "Please wait 15 seconds."].

Definition unavailable_html : str := qlit "<p>Service unavailable</p>".
Definition unavailable_tree : node := document
  [Tag (lit "p") [] ∅ [NavigableString (lit "Service unavailable")]].

(** Pages the login POST leads to. *)
Definition signed_in_html : str := qlit
  "<a class='nav_avatar' href='/user/76561198000000001'></a>".
Definition signed_in_tree : node := document [avatar_link].

Definition signed_in_suspended_html : str := qlit
  "<a class='nav_avatar' href='/user/76561198000000001'></a><a class='nav__button' href='/suspensions'>Suspensions</a>".
Definition signed_in_suspended_tree : node :=
  document [avatar_link; suspensions_badge].

Definition signed_in_second_badge_html : str := qlit
  "<a class='nav_avatar' href='/user/76561198000000001'></a><a class='nav__button' href='/messages'>Messages</a><a class='nav__button' href='/suspensions'>Suspensions</a>".
Definition signed_in_second_badge_tree : node :=
  document [avatar_link; messages_badge; suspensions_badge].

Definition low_level_html : str := qlit
  "<div class='notification'>Your Steam level is too low.</div>".
Definition low_level_tree : node := document
  [Tag (lit "div") [lit "notification"] ∅
     [NavigableString (lit "Your Steam level is too low.")]].

(** Trade pages. *)
Definition trade_html : str := qlit
  "<a class='nav_avatar' href='/user/76561198000000001'></a><form><input type='hidden' name='xsrf_token' value='abc123'><input type='hidden' name='code' value='k9XyZ'></form>".
Definition trade_tree : node := document
  [avatar_link;
   Tag (lit "form") [] ∅
     [hidden_input "xsrf_token" "abc123"; hidden_input "code" "k9XyZ"]].

Definition signed_out_trade_html : str := qlit
  "<form><input type='hidden' name='xsrf_token' value='abc123'><input type='hidden' name='code' value='k9XyZ'></form>".
Definition signed_out_trade_tree : node := document
  [Tag (lit "form") [] ∅
     [hidden_input "xsrf_token" "abc123"; hidden_input "code" "k9XyZ"]].

Definition marked_trade_html : str := qlit
  "<a class='nav_avatar' href='/user/76561198000000001'></a><div class='js_trade_open'></div><form><input type='hidden' name='xsrf_token' value='abc123'><input type='hidden' name='code' value='k9XyZ'></form>".
Definition marked_trade_tree : node := document
  [avatar_link;
   Tag (lit "div") [lit "js_trade_open"] ∅ [];
   Tag (lit "form") [] ∅
     [hidden_input "xsrf_token" "abc123"; hidden_input "code" "k9XyZ"]].

Definition codeless_trade_html : str := qlit
  "<a class='nav_avatar' href='/user/76561198000000001'></a><form><input type='hidden' name='xsrf_token' value='abc123'></form>".
Definition codeless_trade_tree : node := document
  [avatar_link;
   Tag (lit "form") [] ∅ [hidden_input "xsrf_token" "abc123"]].

(** The parser on the sample pages; any other text is an empty
    document. *)
Definition parsed : list (str * node) :=
  [(login_form_html, login_form_tree);
   (suspended_html, suspended_tree);
   (too_fast_html, too_fast_tree);
   (private_html, private_tree);
   (unavailable_html, unavailable_tree);
   (signed_in_html, signed_in_tree);
   (signed_in_suspended_html, signed_in_suspended_tree);
   (low_level_html, low_level_tree);
   (trade_html, trade_tree);
   (signed_out_trade_html, signed_out_trade_tree);
   (marked_trade_html, marked_trade_tree);
   (codeless_trade_html, codeless_trade_tree);
   (second_badge_html, second_badge_tree);
   (second_banner_html, second_banner_tree);
   (signed_in_second_badge_html, signed_in_second_badge_tree)].

Definition parse (markup : str) : node :=
  match list_find (λ entry, entry.1 = markup) parsed with
  | Some (_, (_, tree)) => tree
  | None => document []
  end.

(** The library calls: the decoder and the integer reader defined above,
    and the sample parser. *)
Definition python_with (parser : str → node) : Builtins := {|
  BeautifulSoup := parser;
  json_loads := Json.loads;
  int := PyStr.parse_int;
|}.

Definition python : Builtins := python_with parse.

(** A server that answers by method and URL from a table, whatever came
    before, and with an empty page elsewhere. *)
Definition serving (routes : list (method * str * str)) : site :=
  λ _ r,
    match list_find (λ route, route.1 = (req_method r, req_url r)) routes with
    | Some (_, (_, body)) => Response (lit "/") body
    | None => Response (lit "/") []
    end.

Definition plugin : SteamTrades := default_plugin ∅.

Definition login_get : method * str := (GET, lit "https://steamtrades.com/?login").
Definition login_post : method * str :=
  (POST, lit "https://steamcommunity.com/openid/login").
Definition bump_post : method * str :=
  (POST, lit "https://www.steamtrades.com/ajax.php").
Definition listing_post : method * str :=
  (POST, lit "https://www.steamtrades.com/trades").

Definition trade : TradeInfo :=
  mkTradeInfo (lit "123") (lit "some long trade title ...") trade_html.

(** Bodies of the bump endpoint. *)
Definition cooldown_body : str :=
  qlit "{'popup_heading_h2':['Please wait another 7 minutes']}".
Definition cooldown_body_two_spaces : str :=
  qlit "{'popup_heading_h2':['Please wait another  7 minutes']}".
Definition cooldown_text : str := lit "Please wait another 7 minutes".
Definition listing_html : str :=
  qlit "<a href='/trade/123/some-long-trade-title-here'>some long trade title here</a>".

End Samples.

(** ** Further vocabulary *)

(** [s.count(c)] for one character. *)
Definition count_char (c : N) (s : str) : nat :=
  length (filter (λ x, x = c) s).

(** ** Further sample pages *)

Module MoreSamples.
Import Bs4.

(** A trade page whose form has an input without name and value. *)
Definition decorated_trade_html : str := qlit
  "<a class='nav_avatar' href='/user/76561198000000001'></a><form><input type='hidden' name='xsrf_token' value='abc123'><input type='submit'><input type='hidden' name='code' value='k9XyZ'></form>".
Definition decorated_trade_tree : node := Samples.document
  [Samples.avatar_link;
   Tag (lit "form") [] ∅
     [Samples.hidden_input "xsrf_token" "abc123";
      Tag (lit "input") [] {[ lit "type" := lit "submit" ]} [];
      Samples.hidden_input "code" "k9XyZ"]].

(** A trade page whose form has more fields than the two tokens, one of
    them called [do]. *)
Definition crowded_trade_html : str := qlit
  "<a class='nav_avatar' href='/user/76561198000000001'></a><form><input type='hidden' name='xsrf_token' value='abc123'><input type='hidden' name='do' value='trade_delete'><input type='hidden' name='code' value='k9XyZ'><input type='hidden' name='page' value='2'></form>".
Definition crowded_trade_tree : node := Samples.document
  [Samples.avatar_link;
   Tag (lit "form") [] ∅
     [Samples.hidden_input "xsrf_token" "abc123";
      Samples.hidden_input "do" "trade_delete";
      Samples.hidden_input "code" "k9XyZ";
      Samples.hidden_input "page" "2"]].

(** A page after login whose avatar link has a relative address. *)
Definition relative_avatar_html : str := qlit
  "<a class='nav_avatar' href='user/76561198000000001'></a>".
Definition relative_avatar_tree : node := Samples.document
  [Tag (lit "a") [lit "nav_avatar"]
     {[ lit "href" := lit "user/76561198000000001" ]} []].

Definition parsed : list (str * node) :=
  Samples.parsed ++
  [(decorated_trade_html, decorated_trade_tree);
   (crowded_trade_html, crowded_trade_tree);
   (relative_avatar_html, relative_avatar_tree)].

Definition parse (markup : str) : node :=
  match list_find (λ entry, entry.1 = markup) parsed with
  | Some (_, (_, tree)) => tree
  | None => Samples.document []
  end.

Definition python : Builtins := Samples.python_with parse.

End MoreSamples.

(** * Properties *)

(** ** The JSON decoder *)

Lemma skip_ws_length (s : str) : length (Json.skip_ws s) ≤ length s.
Proof.
  induction s as [|c s IH]; [done|]. cbn [Json.skip_ws].
  case_bool_decide; cbn [length]; lia.
Qed.

(** A string body that closes leaves less text than it was given. *)
Lemma scanstring_length (n : nat) :
  ∀ (s acc k rest : str),
    length s ≤ n →
    Json.scanstring acc s = Some (k, rest) → length rest < length s.
Proof.
  induction n as [|n IH]; intros s acc k rest Hn Hscan.
  - destruct s; [done|]. cbn in Hn. lia.
  - destruct s as [|c r]; [done|]. cbn [Json.scanstring] in Hscan.
    cbn [length] in *.
    repeat (case_bool_decide || case_match || simplify_eq || cbn [length] in * );
      try lia.
    all: try (apply IH in Hscan; cbn [length] in *; lia).
Qed.

Lemma startswith_length (p s : str) :
  PyStr.startswith p s = true → length p ≤ length s.
Proof.
  revert s. induction p as [|a p IH]; intros s; [cbn; lia|].
  destruct s as [|b s]; [done|]. cbn [PyStr.startswith length].
  intros [_ Hrest]%andb_prop. apply IH in Hrest. lia.
Qed.

Lemma span_digits_length (s : str) :
  length (Json.span_digits s).2 ≤ length s.
Proof.
  induction s as [|c s IH]; [done|]. cbn [Json.span_digits].
  destruct (Json.isdigit c); [|done].
  destruct (Json.span_digits s) as [ds rest]. cbn in *. lia.
Qed.

Lemma scan_fraction_length (s : str) :
  length (Json.scan_fraction s).2 ≤ length s.
Proof.
  destruct s as [|c s]; [done|]. cbn [Json.scan_fraction].
  case_bool_decide; [|done].
  pose proof (span_digits_length s).
  destruct (Json.span_digits s) as [[|d ds] rest]; cbn in *; lia.
Qed.

Lemma scan_exponent_length (s : str) :
  length (Json.scan_exponent s).2 ≤ length s.
Proof.
  destruct s as [|c s]; [done|]. cbn [Json.scan_exponent].
  case_bool_decide; [|done].
  destruct s as [|g s]; [done|].
  pose proof (span_digits_length s). pose proof (span_digits_length (g :: s)).
  case_bool_decide.
  - destruct (Json.span_digits s) as [[|d ds] rest]; cbn in *; lia.
  - destruct (Json.span_digits (g :: s)) as [[|d ds] rest]; cbn in *; lia.
Qed.

Lemma scan_integer_length (s ds rest : str) :
  Json.scan_integer s = Some (ds, rest) → length rest < length s.
Proof.
  destruct s as [|c s]; [done|]. cbn [Json.scan_integer].
  pose proof (span_digits_length s).
  case_bool_decide; [intros [= <- <-]; cbn; lia|].
  destruct (Json.isdigit c); [|done].
  destruct (Json.span_digits s) as [ds' rest']. intros [= <- <-]. cbn in *. lia.
Qed.

Lemma scan_number_length (s rest : str) (v : Json.json) :
  Json.scan_number s = Some (v, rest) → length rest < length s.
Proof.
  unfold Json.scan_number.
  set (sign := match s with
               | c :: s' => if bool_decide (c = 45%N) then (true, s') else (false, s)
               | [] => (false, s)
               end).
  assert (length sign.2 ≤ length s) as Hsign.
  { subst sign. destruct s as [|c s]; [done|]. case_bool_decide; cbn; lia. }
  destruct sign as [neg s1]. cbn [snd] in Hsign.
  destruct (Json.scan_integer s1) as [[ds s2]|] eqn:Hint; [|done].
  apply scan_integer_length in Hint. cbn.
  pose proof (scan_fraction_length s2).
  destruct (Json.scan_fraction s2) as [frac s3].
  pose proof (scan_exponent_length s3).
  destruct (Json.scan_exponent s3) as [ex s4]. cbn [snd] in *.
  destruct frac, ex; intros [= _ <-]; lia.
Qed.

Lemma scan_atom_length (s rest : str) (v : Json.json) :
  Json.scan_atom s = Json.Scanned v rest → length rest < length s.
Proof.
  unfold Json.scan_atom.
  repeat match goal with
         | |- context [PyStr.startswith ?p s] =>
             let H := fresh "Hprefix" in
             destruct (PyStr.startswith p s) eqn:H;
             [apply startswith_length in H;
              let n := eval vm_compute in (length p) in
              change (length p) with n in H;
              intros [= _ <-]; rewrite length_drop; lia
             |clear H]
         end.
  destruct (Json.scan_number s) as [[v' rest']|] eqn:Hnumber; [|done].
  intros [= _ <-]. by apply scan_number_length in Hnumber.
Qed.

Lemma scan_atom_budget (s : str) : Json.scan_atom s ≠ Json.NoFuel.
Proof.
  unfold Json.scan_atom.
  repeat match goal with
         | |- context [PyStr.startswith ?p s] =>
             destruct (PyStr.startswith p s); [done|]
         end.
  by destruct (Json.scan_number s) as [[v rest]|].
Qed.

(** A step that scans a value leaves less text than it was given, and a
    budget above twice the length of the text is never used up. *)
Lemma scan_budget (fuel : nat) :
  (∀ s,
     (∀ v rest, Json.scan_once fuel s = Json.Scanned v rest →
                length rest < length s) ∧
     (2 * length s < fuel → Json.scan_once fuel s ≠ Json.NoFuel)) ∧
  (∀ acc s,
     (∀ v rest, Json.scan_items fuel acc s = Json.Scanned v rest →
                length rest < length s) ∧
     (2 * length s + 1 < fuel → Json.scan_items fuel acc s ≠ Json.NoFuel)) ∧
  (∀ acc s,
     (∀ v rest, Json.scan_members fuel acc s = Json.Scanned v rest →
                length rest < length s) ∧
     (2 * length s < fuel → Json.scan_members fuel acc s ≠ Json.NoFuel)).
Proof.
  induction fuel as [|fuel (IHonce & IHitems & IHmembers)].
  { repeat split; try done; cbn; lia. }
  split; [|split].
  - intros s. destruct s as [|c r]; [done|]. cbn [Json.scan_once length].
    pose proof (skip_ws_length r) as Hws.
    case_bool_decide.
    { split; [|by destruct (Json.scanstring [] r) as [[]|]].
      intros v rest.
      destruct (Json.scanstring [] r) as [[k rest']|] eqn:Hstring; [|done].
      intros [= _ <-].
      apply (scanstring_length (length r)) in Hstring; lia. }
    case_bool_decide.
    { destruct (Json.skip_ws r) as [|d r'] eqn:Hskip; [done|].
      cbn [length] in Hws.
      case_bool_decide.
      - split; [|done]. intros v rest [= _ <-]. lia.
      - destruct (IHitems [] (d :: r')) as [Hless Hfuel]. cbn [length] in *.
        split.
        + intros v rest Hscan. apply Hless in Hscan. lia.
        + intros Hbudget. apply Hfuel. lia. }
    case_bool_decide.
    { destruct (Json.skip_ws r) as [|d r'] eqn:Hskip; [done|].
      cbn [length] in Hws.
      case_bool_decide.
      - split; [|done]. intros v rest [= _ <-]. lia.
      - destruct (IHmembers [] (d :: r')) as [Hless Hfuel]. cbn [length] in *.
        split.
        + intros v rest Hscan. apply Hless in Hscan. lia.
        + intros Hbudget. apply Hfuel. lia. }
    split.
    + intros v rest Hatom. apply scan_atom_length in Hatom. by cbn in Hatom.
    + intros _. apply scan_atom_budget.
  - intros acc s. cbn [Json.scan_items].
    destruct (IHonce s) as [Hless Hfuel].
    destruct (Json.scan_once fuel s) as [v rest| |] eqn:Hvalue.
    + specialize (Hless v rest eq_refl).
      pose proof (skip_ws_length rest) as Hws.
      destruct (Json.skip_ws rest) as [|d r] eqn:Hskip; [done|].
      cbn [length] in Hws.
      case_bool_decide; [split; [intros ? ? [= _ <-]; lia|done]|].
      case_bool_decide; [|done].
      pose proof (skip_ws_length r) as Hws'.
      destruct (IHitems (v :: acc) (Json.skip_ws r)) as [Hless' Hfuel'].
      split.
      * intros v' rest' Hscan. apply Hless' in Hscan. lia.
      * intros Hbudget. apply Hfuel'. lia.
    + done.
    + split; [done|]. intros Hbudget. destruct Hfuel; [lia|done].
  - intros acc s. cbn [Json.scan_members].
    destruct s as [|q r]; [done|]. cbn [length].
    case_bool_decide; [|done].
    destruct (Json.scanstring [] r) as [[k rest]|] eqn:Hstring; [|done].
    apply (scanstring_length (length r)) in Hstring; [|lia].
    pose proof (skip_ws_length rest) as Hws.
    destruct (Json.skip_ws rest) as [|colon r1] eqn:Hskip; [done|].
    cbn [length] in Hws.
    case_bool_decide; [|done].
    pose proof (skip_ws_length r1) as Hws1.
    destruct (IHonce (Json.skip_ws r1)) as [Hless Hfuel].
    destruct (Json.scan_once fuel (Json.skip_ws r1)) as [v rest1| |] eqn:Hvalue.
    + specialize (Hless v rest1 eq_refl).
      pose proof (skip_ws_length rest1) as Hws2.
      destruct (Json.skip_ws rest1) as [|d r2] eqn:Hskip1; [done|].
      cbn [length] in Hws2.
      case_bool_decide; [split; [intros ? ? [= _ <-]; lia|done]|].
      case_bool_decide; [|done].
      pose proof (skip_ws_length r2) as Hws3.
      destruct (IHmembers ((k, v) :: acc) (Json.skip_ws r2)) as [Hless' Hfuel'].
      split.
      * intros v' rest' Hscan. apply Hless' in Hscan. lia.
      * intros Hbudget. apply Hfuel'. lia.
    + done.
    + split; [done|]. intros Hbudget. destruct Hfuel; [lia|done].
Qed.

(** [loads] never stops for want of budget: when it gives [None], the
    text starts with a byte order mark, or is not a JSON value, or is a
    value followed by more than blanks. *)
Lemma loads_budget (s : str) :
  Json.scan_once (2 * length s + 2) (Json.skip_ws s) ≠ Json.NoFuel.
Proof.
  apply scan_budget. pose proof (skip_ws_length s). lia.
Qed.

(** ** The coroutine monad *)

Lemma bind_Ret {A B : Type} (a : A) (f : A → prog B) : Ret a ≫= f = f a.
Proof. reflexivity. Qed.

Lemma bind_Raise {A B : Type} (e : exn) (f : A → prog B) :
  Raise e ≫= f = Raise e.
Proof. reflexivity. Qed.

Lemma bind_Await {A B : Type} (r : request) (k : response → prog A)
    (f : A → prog B) :
  Await r k ≫= f = Await r (λ x, k x ≫= f).
Proof. reflexivity. Qed.

(** Running [p] and then [f] is running [f] from where [p] stopped. *)
Lemma run_bind {A B : Type} (srv : site) (p : prog A) (f : A → prog B) :
  ∀ sent,
    run srv sent (p ≫= f) =
    match run srv sent p with
    | (sent', Returned a) => run srv sent' (f a)
    | (sent', Raised e) => (sent', Raised e)
    end.
Proof.
  induction p as [a | e | r k IH]; intros sent.
  - reflexivity.
  - reflexivity.
  - rewrite bind_Await. simpl. apply IH.
Qed.

(** The requests already made stay at the front of the trace. *)
Lemma run_extends {A : Type} (srv : site) (p : prog A) :
  ∀ sent, ∃ more, (run srv sent p).1 = sent ++ more.
Proof.
  induction p as [a | e | r k IH]; intros sent; simpl.
  - exists []. by rewrite app_nil_r.
  - exists []. by rewrite app_nil_r.
  - destruct (IH (srv sent r) (sent ++ [r])) as [more Hmore].
    exists (r :: more). rewrite Hmore. by rewrite <- app_assoc.
Qed.

(** ** Collecting the inputs of a form *)

Section fields.
Context {lib : Builtins}.

Lemma login_input_step (input_ : Bs4.node) (data : gmap str str) :
  login_input input_ data =
  Ret match Bs4.getitem input_ (lit "value"), Bs4.getitem input_ (lit "name") with
      | Some value, Some name => <[name := value]> data
      | _, _ => data
      end.
Proof.
  unfold login_input, tag_item.
  destruct (Bs4.getitem input_ (lit "value")) as [value|]; [|reflexivity].
  rewrite bind_Ret.
  destruct (Bs4.getitem input_ (lit "name")) as [name|]; reflexivity.
Qed.

(** The loop of [do_login] never fails: it yields the fields of the
    inputs that have a name and a value. *)
Lemma for_each_login_input (inputs : list Bs4.node) :
  ∀ data,
    for_each inputs login_input data =
    Ret (foldl (λ data input_,
                  match Bs4.getitem input_ (lit "value"),
                        Bs4.getitem input_ (lit "name") with
                  | Some value, Some name => <[name := value]> data
                  | _, _ => data
                  end) data inputs).
Proof.
  induction inputs as [|input_ inputs IH]; intros data; [reflexivity|].
  cbn [for_each foldl]. rewrite login_input_step, bind_Ret. apply IH.
Qed.

(** The loop of [bump] yields the same fields when every input has a
    name and a value. *)
Lemma for_each_bump_input (inputs : list Bs4.node) :
  Forall complete_input inputs →
  ∀ data,
    for_each inputs bump_input data =
    Ret (foldl (λ data input_,
                  match Bs4.getitem input_ (lit "value"),
                        Bs4.getitem input_ (lit "name") with
                  | Some value, Some name => <[name := value]> data
                  | _, _ => data
                  end) data inputs).
Proof.
  intros Hall.
  induction Hall as [|input_ inputs Hcomplete _ IH]; intros data; [reflexivity|].
  destruct Hcomplete as [[name Hname] [value Hvalue]].
  cbn [for_each foldl]. unfold bump_input, tag_item.
  rewrite Hname, Hvalue, !bind_Ret. apply IH.
Qed.

(** An input without a value or without a name stops the loop of [bump]
    with a [KeyError]. *)
Lemma for_each_bump_input_incomplete (inputs : list Bs4.node) :
  ¬ Forall complete_input inputs →
  ∀ data, ∃ key, for_each inputs bump_input data = Raise (KeyError key).
Proof.
  induction inputs as [|input_ inputs IH]; intros Hnot data.
  - destruct Hnot. constructor.
  - cbn [for_each]. unfold bump_input, tag_item.
    destruct (Bs4.getitem input_ (lit "value")) as [value|] eqn:Hvalue;
      [|by eexists].
    rewrite bind_Ret.
    destruct (Bs4.getitem input_ (lit "name")) as [name|] eqn:Hname;
      [|by eexists].
    rewrite !bind_Ret. apply IH. intros Hall. apply Hnot.
    constructor; [|done]. split; by eexists.
Qed.

End fields.

(** A field of the form has the value of the last input that sets it. *)
Lemma form_fields_lookup (inputs : list Bs4.node) (k : str) :
  form_fields inputs !! k = field_value k inputs.
Proof.
  unfold form_fields, field_value.
  induction inputs as [|input_ inputs IH] using rev_ind; [done|].
  rewrite foldl_app, omap_app. cbn [foldl omap list_omap].
  destruct (Bs4.getitem input_ (lit "value")) as [value|];
    destruct (Bs4.getitem input_ (lit "name")) as [name|];
    rewrite ?app_nil_r; try done.
  destruct (decide (name = k)) as [->|Hk].
  - rewrite bool_decide_true by done.
    rewrite lookup_insert_eq. by rewrite last_snoc.
  - rewrite bool_decide_false by done.
    rewrite lookup_insert_ne by done. by rewrite app_nil_r.
Qed.

(** ** [bump]: from the stored page to the requests *)

(** Steps [bump] through its checks on a page that lets it collect the
    fields of [form]. *)
Ltac bump_collect Havatar Hmarker Hform Hall :=
  unfold bump; rewrite Havatar, Hmarker, Hform;
  cbn [findAll_inputs]; rewrite bind_Ret;
  rewrite (for_each_bump_input _ Hall); cbn [try_except]; rewrite bind_Ret;
  match type of Hform with
  | _ = Some ?form => fold (form_fields (Bs4.findAll (lit "input") None form))
  end.

(** Without [code] among the collected fields, [bump] stops at
    [data['code']]. *)
Lemma bump_without_code {lib : Builtins} (self : SteamTrades)
    (trade_info : TradeInfo) (data : gmap str str) :
  bump_collects trade_info data →
  data !! lit "code" = None →
  bump self trade_info = Raise (KeyError (SubStr (lit "code"))).
Proof.
  intros ([avatar Havatar] & Hmarker & form & Hform & Hall & ->) Hcode.
  bump_collect Havatar Hmarker Hform Hall.
  unfold dict_item. by rewrite Hcode.
Qed.

(** With [code] and without [xsrf_token], it stops at
    [data['xsrf_token']]. *)
Lemma bump_without_xsrf_token {lib : Builtins} (self : SteamTrades)
    (trade_info : TradeInfo) (data : gmap str str) :
  bump_collects trade_info data →
  is_Some (data !! lit "code") →
  data !! lit "xsrf_token" = None →
  bump self trade_info = Raise (KeyError (SubStr (lit "xsrf_token"))).
Proof.
  intros ([avatar Havatar] & Hmarker & form & Hform & Hall & ->) [code Hcode] Hxsrf.
  bump_collect Havatar Hmarker Hform Hall.
  unfold dict_item. by rewrite Hcode, bind_Ret, Hxsrf.
Qed.

(** [bump] on a page that lets it collect [data] holding both tokens: it
    posts them, and the body of the response decides between the cooldown
    branch and the look at the listing. *)
Lemma bump_run {lib : Builtins} (self : SteamTrades) (trade_info : TradeInfo)
    (data : gmap str str) (code xsrf_token : str) (srv : site)
    (sent : list request) :
  bump_collects trade_info data →
  data !! lit "code" = Some code →
  data !! lit "xsrf_token" = Some xsrf_token →
  run srv sent (bump self trade_info) =
    let request := bump_request self code xsrf_token in
    let body := resp_text (srv sent request) in
    if PyStr.contains (lit "Please wait another") body then
      (sent ++ [request],
       match read_cooldown body with
       | Returned minutes_left =>
           Raised (TradeNotReadyError (id trade_info) (title trade_info)
                     minutes_left
                     (lit "Trade " ++ id trade_info ++ lit " is not ready"))
       | Raised e => Raised e
       end)
    else
      let listing :=
        Request POST (server self ++ lit "/trades") (headers self) None in
      (sent ++ [request; listing],
       Returned (PyStr.contains (id trade_info)
                   (resp_text (srv (sent ++ [request]) listing)))).
Proof.
  intros ([avatar Havatar] & Hmarker & form & Hform & Hall & ->) Hcode Hxsrf.
  bump_collect Havatar Hmarker Hform Hall.
  unfold dict_item. rewrite Hcode, bind_Ret, Hxsrf, bind_Ret.
  unfold http_post. rewrite bind_Await. cbn [run]. rewrite bind_Ret.
  fold (bump_request self code xsrf_token). cbv zeta.
  destruct (PyStr.contains (lit "Please wait another") _).
  - unfold read_cooldown.
    destruct (json_loads _) as [decoded|]; [|reflexivity].
    cbn [or_raise]. rewrite bind_Ret.
    destruct (Json.getitem decoded _) as [heading|e]; [|reflexivity].
    cbn [of_result]. rewrite bind_Ret.
    destruct (Json.getitem heading _) as [error|e]; [|reflexivity].
    cbn [of_result]. rewrite bind_Ret.
    destruct (Json.split_method 32 error) as [tokens|e]; [|reflexivity].
    cbn [of_result]. rewrite bind_Ret. unfold list_item.
    destruct (tokens !! 3) as [token|]; [|reflexivity].
    rewrite bind_Ret.
    destruct (int token) as [minutes_left|]; reflexivity.
  - rewrite bind_Await. cbn [run]. rewrite bind_Ret.
    rewrite <- app_assoc.
    destruct (PyStr.contains (id trade_info) _); reflexivity.
Qed.

(** A form with an input that lacks its name or its value stops [bump]
    with the [KeyError] of that lookup. *)
Lemma bump_incomplete_input {lib : Builtins} (self : SteamTrades)
    (trade_info : TradeInfo) (form : Bs4.node) :
  let soup := BeautifulSoup (html trade_info) in
  is_Some (Bs4.find (lit "a") (Some (lit "nav_avatar")) soup) →
  Bs4.find (lit "div") (Some (lit "js_trade_open")) soup = None →
  Bs4.find (lit "form") None soup = Some form →
  ¬ Forall complete_input (Bs4.findAll (lit "input") None form) →
  ∃ key, bump self trade_info = Raise (KeyError key).
Proof.
  intros soup [avatar Havatar] Hmarker Hform Hnot. subst soup.
  destruct (for_each_bump_input_incomplete _ Hnot ∅) as [key Hkey].
  exists key. unfold bump. rewrite Havatar, Hmarker, Hform.
  cbn [findAll_inputs]. by rewrite bind_Ret, Hkey.
Qed.

(** ** The cooldown notice *)

(** Item 0 of a string is one character, which has no fourth piece. *)
Lemma first_character_has_no_fourth_piece (s : str) :
  match Json.getitem (Json.JStr s) (SubInt 0) with
  | Returned error =>
      match Json.split_method 32 error with
      | Returned tokens => tokens !! 3 = None
      | Raised _ => False
      end
  | Raised e => e = IndexError
  end.
Proof.
  unfold Json.getitem. rewrite bool_decide_true by done.
  change (Z.to_nat 0) with 0%nat.
  destruct s as [|c s]; cbn; [done|].
  unfold PyStr.split. cbn. by case_bool_decide.
Qed.

(** Item 0 of a list is its head. *)
Lemma getitem_0 (items : list Json.json) :
  Json.getitem (Json.JArr items) (SubInt 0) =
  match items with
  | first :: _ => Returned first
  | [] => Raised IndexError
  end.
Proof.
  unfold Json.getitem. rewrite bool_decide_true by done.
  change (Z.to_nat 0) with 0%nat. by destruct items.
Qed.

(** The steps of [bump] read exactly the envelopes of the
    specification. *)
Lemma read_cooldown_envelope {lib : Builtins} (body : str) (minutes : Z) :
  read_cooldown body = Returned minutes ↔ envelope_minutes body = Some minutes.
Proof.
  unfold read_cooldown, envelope_minutes.
  destruct (json_loads body) as [decoded|]; cbn; [|done].
  destruct decoded as [| | | | |items|members]; cbn; try done.
  destruct (Json.member _ members) as [heading|]; cbn; [|done].
  destruct heading as [| | | |s|items|members']; try done.
  - pose proof (first_character_has_no_fourth_piece s) as Hs.
    destruct (Json.getitem (Json.JStr s) (SubInt 0)) as [error|e]; [|done].
    destruct (Json.split_method 32 error) as [tokens|e]; [|done].
    by rewrite Hs.
  - rewrite getitem_0. destruct items as [|first items]; [done|].
    destruct first; cbn; try done.
    destruct (PyStr.split 32 _ !! 3) as [token|]; cbn; [|done].
    destruct (int token); cbn; split; congruence.
Qed.

(** When they fail, they fail with a built-in exception. *)
Lemma read_cooldown_raises {lib : Builtins} (body : str) (e : exn) :
  read_cooldown body = Raised e →
  e ∈ [JSONDecodeError; KeyError (SubStr (lit "popup_heading_h2"));
       KeyError (SubInt 0); IndexError; TypeError; AttributeError; ValueError].
Proof.
  unfold read_cooldown.
  destruct (json_loads body) as [decoded|]; [|intros [= <-]; set_solver].
  destruct decoded as [| | | | |items|members]; cbn;
    try (intros [= <-]; set_solver).
  destruct (Json.member _ members) as [heading|]; cbn;
    [|intros [= <-]; set_solver].
  destruct heading as [| | | |s|items|members'];
    try (cbn; intros [= <-]; set_solver).
  - pose proof (first_character_has_no_fourth_piece s) as Hs.
    destruct (Json.getitem (Json.JStr s) (SubInt 0)) as [error|e'];
      [|subst; intros [= <-]; set_solver].
    destruct (Json.split_method 32 error) as [tokens|e']; [|done].
    rewrite Hs. intros [= <-]; set_solver.
  - rewrite getitem_0.
    destruct items as [|first items]; [intros [= <-]; set_solver|].
    destruct first; cbn; try (intros [= <-]; set_solver).
    destruct (PyStr.split 32 _ !! 3) as [token|]; [|intros [= <-]; set_solver].
    destruct (int token); [done|intros [= <-]; set_solver].
Qed.

(** ** [bump]: the checks on the stored page *)

(** [find] gives the first tag of the page, in document order, that
    matches, and [None] exactly when no tag of the page matches. *)
Lemma find_first (name : str) (class_ : option str) (soup found : Bs4.node) :
  Bs4.find name class_ soup = Some found →
  Bs4.matches name class_ found = true ∧
  ∃ before after,
    Bs4.descendants soup = before ++ found :: after ∧
    Forall (λ d, Bs4.matches name class_ d = false) before.
Proof.
  unfold Bs4.find, Bs4.findAll.
  induction (Bs4.descendants soup) as [|d l IH]; [done|].
  destruct (Bs4.matches name class_ d) eqn:Hmatch.
  - rewrite filter_cons_True by (by apply Is_true_true).
    intros [= <-]. split; [done|]. by exists [], l.
  - rewrite filter_cons_False by (by apply Is_true_false).
    intros (Hfound & before & after & -> & Hbefore)%IH. split; [done|].
    exists (d :: before), after. split; [done|]. by constructor.
Qed.

Lemma find_Some (name : str) (class_ : option str) (soup found : Bs4.node) :
  Bs4.find name class_ soup = Some found →
  found ∈ Bs4.descendants soup ∧ Bs4.matches name class_ found = true.
Proof.
  intros (Hfound & before & after & -> & _)%find_first. split; [|done].
  apply elem_of_app. right. apply elem_of_cons. by left.
Qed.

Lemma find_None (name : str) (class_ : option str) (soup : Bs4.node) :
  Bs4.find name class_ soup = None ↔ ¬ has_element name class_ soup.
Proof.
  unfold Bs4.find, Bs4.findAll, has_element.
  induction (Bs4.descendants soup) as [|d l IH].
  - split; [|done]. intros _ (d & Hd & _). by apply elem_of_nil in Hd.
  - destruct (Bs4.matches name class_ d) eqn:Hmatch.
    + rewrite filter_cons_True by (by apply Is_true_true). split; [done|].
      intros Hnone. destruct Hnone. exists d. split; [apply elem_of_cons; by left|done].
    + rewrite filter_cons_False by (by apply Is_true_false). rewrite IH.
      split; intros Hnone (d' & Hd' & Hmatch'); apply Hnone.
      * apply elem_of_cons in Hd' as [->|Hd']; [congruence|]. by exists d'.
      * exists d'. split; [apply elem_of_cons; by right|done].
Qed.

Lemma find_is_Some (name : str) (class_ : option str) (soup : Bs4.node) :
  is_Some (Bs4.find name class_ soup) ↔ has_element name class_ soup.
Proof.
  split.
  - intros [found Hfound]. exists found. by apply find_Some.
  - intros Hhas. destruct (Bs4.find name class_ soup) eqn:Hfind; [done|].
    by apply find_None in Hfind.
Qed.

(** C4. When the stored page of a trade has no avatar link (no [a] tag
    of class [nav_avatar]), [bump] raises [LoginError] and does nothing
    else: the coroutine is that [raise] alone, so whatever the server and
    whatever was sent before, no request is added, no form is looked for
    and no token is read. *)
Theorem bump_signed_out {lib : Builtins} (self : SteamTrades)
    (trade_info : TradeInfo) :
  ¬ has_element (lit "a") (Some (lit "nav_avatar"))
      (BeautifulSoup (html trade_info)) →
  bump self trade_info = Raise (LoginError (lit "User is not logged in")) ∧
  ∀ (srv : site) (sent : list request),
    run srv sent (bump self trade_info) =
    (sent, Raised (LoginError (lit "User is not logged in"))).
Proof.
  intros Havatar%find_None.
  assert (bump self trade_info = Raise (LoginError (lit "User is not logged in")))
    as Hbump by (unfold bump; by rewrite Havatar).
  split; [done|]. intros srv sent. by rewrite Hbump.
Qed.

Lemma bump_signed_out_sample :
  run (Samples.serving [(Samples.bump_post, lit "ok")]) []
    (bump (lib := Samples.python) Samples.plugin
       (mkTradeInfo (lit "123") (lit "some long trade title ...")
          Samples.signed_out_trade_html)) =
  ([], Raised (LoginError (lit "User is not logged in"))).
Proof.
  apply (bump_signed_out (lib := Samples.python)).
  apply find_None. vm_compute. reflexivity.
Defined.

(** C8. On a stored page that has the avatar link, [bump] raises
    [TradeClosedError] with the id and title of the trade when the page
    has a [js_trade_open] marker (a [div] of that class); without the
    marker and without any [form] tag it raises [NoTradesError], which is
    another exception. Neither makes a request. *)
Theorem bump_closed_or_empty {lib : Builtins} (self : SteamTrades)
    (trade_info : TradeInfo) :
  let soup := BeautifulSoup (html trade_info) in
  has_element (lit "a") (Some (lit "nav_avatar")) soup →
  (has_element (lit "div") (Some (lit "js_trade_open")) soup →
   bump self trade_info =
   Raise (TradeClosedError (id trade_info) (title trade_info)
            (lit "Trade " ++ id trade_info ++ lit " is closed"))) ∧
  (¬ has_element (lit "div") (Some (lit "js_trade_open")) soup →
   ¬ has_element (lit "form") None soup →
   bump self trade_info = Raise (NoTradesError (lit "No trades available to bump"))) ∧
  (∀ message id title message',
     NoTradesError message ≠ TradeClosedError id title message').
Proof.
  intros soup [avatar Havatar]%find_is_Some. subst soup.
  split; [|split].
  - intros [marker Hmarker]%find_is_Some. unfold bump.
    by rewrite Havatar, Hmarker.
  - intros Hmarker%find_None Hform%find_None. unfold bump.
    by rewrite Havatar, Hmarker, Hform.
  - done.
Qed.

Lemma bump_closed_or_empty_sample :
  bump (lib := Samples.python) Samples.plugin
    (mkTradeInfo (lit "123") (lit "some long trade title ...")
       Samples.marked_trade_html) =
  Raise (TradeClosedError (lit "123") (lit "some long trade title ...")
           (lit "Trade 123 is closed")) ∧
  bump (lib := Samples.python) Samples.plugin
    (mkTradeInfo (lit "123") (lit "some long trade title ...")
       Samples.signed_in_html) =
  Raise (NoTradesError (lit "No trades available to bump")).
Proof.
  split.
  - refine (proj1 (bump_closed_or_empty (lib := Samples.python) Samples.plugin
                     (mkTradeInfo _ _ Samples.marked_trade_html) _) _).
    + apply find_is_Some. vm_compute. eexists. reflexivity.
    + apply find_is_Some. vm_compute. eexists. reflexivity.
  - refine (proj1 (proj2 (bump_closed_or_empty (lib := Samples.python)
                            Samples.plugin
                            (mkTradeInfo _ _ Samples.signed_in_html) _)) _ _).
    + apply find_is_Some. vm_compute. eexists. reflexivity.
    + apply find_None. vm_compute. reflexivity.
    + apply find_None. vm_compute. reflexivity.
Defined.

(** C9. When the fields [bump] collects lack [code] or [xsrf_token],
    [bump] raises the [KeyError] of the first missing one. That is a
    built-in exception and none of the classified failures; nothing is
    sent and nothing is returned, [False] included. *)
Theorem bump_missing_token {lib : Builtins} (self : SteamTrades)
    (trade_info : TradeInfo) (data : gmap str str) :
  bump_collects trade_info data →
  data !! lit "code" = None ∨ data !! lit "xsrf_token" = None →
  ∃ key,
    (key = lit "code" ∨ key = lit "xsrf_token") ∧
    data !! key = None ∧
    bump self trade_info = Raise (KeyError (SubStr key)) ∧
    classified (KeyError (SubStr key)) = false ∧
    ∀ (srv : site) (sent : list request),
      run srv sent (bump self trade_info) = (sent, Raised (KeyError (SubStr key))) ∧
      ∀ b : bool, (run srv sent (bump self trade_info)).2 ≠ Returned b.
Proof.
  intros Hcollects Hmissing.
  destruct (data !! lit "code") as [code|] eqn:Hcode.
  - destruct Hmissing as [|Hxsrf]; [done|].
    exists (lit "xsrf_token").
    rewrite (bump_without_xsrf_token self trade_info data) by (by rewrite ?Hcode).
    repeat split; by try right.
  - exists (lit "code").
    rewrite (bump_without_code self trade_info data) by done.
    repeat split; by try left.
Qed.

Lemma bump_missing_token_sample :
  ∃ key,
    (key = lit "code" ∨ key = lit "xsrf_token") ∧
    ({[ lit "xsrf_token" := lit "abc123" ]} : gmap str str) !! key = None ∧
    bump (lib := Samples.python) Samples.plugin
      (mkTradeInfo (lit "123") (lit "some long trade title ...")
         Samples.codeless_trade_html) = Raise (KeyError (SubStr key)) ∧
    classified (KeyError (SubStr key)) = false ∧
    ∀ (srv : site) (sent : list request),
      run srv sent
        (bump (lib := Samples.python) Samples.plugin
           (mkTradeInfo (lit "123") (lit "some long trade title ...")
              Samples.codeless_trade_html)) =
      (sent, Raised (KeyError (SubStr key))) ∧
      ∀ b : bool,
        (run srv sent
           (bump (lib := Samples.python) Samples.plugin
              (mkTradeInfo (lit "123") (lit "some long trade title ...")
                 Samples.codeless_trade_html))).2 ≠ Returned b.
Proof.
  apply (bump_missing_token (lib := Samples.python)).
  - split; [vm_compute; eexists; reflexivity|].
    split; [vm_compute; reflexivity|].
    eexists. split; [vm_compute; reflexivity|].
    split; [|vm_compute; reflexivity].
    vm_compute. repeat constructor; eexists; reflexivity.
  - left. vm_compute. reflexivity.
Defined.

(** ** [bump]: the answer of the bump endpoint *)

(** C3, as amended. When the body of the response to the bump request
    contains "Please wait another" and is a cooldown envelope (a JSON
    object whose [popup_heading_h2] is an array starting with a string
    whose fourth piece, cut at each single space, reads as an integer),
    [bump] raises [TradeNotReadyError] with that integer and the id and
    title of the trade, after that one request. With the decoder and the
    integer reader of this development, the body
    [{"popup_heading_h2":["Please wait another 7 minutes"]}] gives 7
    minutes. *)
Theorem bump_cooldown :
  (∀ (lib : Builtins) (self : SteamTrades) (trade_info : TradeInfo)
     (data : gmap str str) (code xsrf_token : str) (srv : site)
     (sent : list request) (minutes : Z),
     bump_collects trade_info data →
     data !! lit "code" = Some code →
     data !! lit "xsrf_token" = Some xsrf_token →
     let body := resp_text (srv sent (bump_request self code xsrf_token)) in
     PyStr.contains (lit "Please wait another") body = true →
     envelope_minutes body = Some minutes →
     run srv sent (bump self trade_info) =
     (sent ++ [bump_request self code xsrf_token],
      Raised (TradeNotReadyError (id trade_info) (title trade_info) minutes
                (lit "Trade " ++ id trade_info ++ lit " is not ready")))) ∧
  (∀ (parser : str → Bs4.node) (self : SteamTrades) (trade_info : TradeInfo)
     (data : gmap str str) (code xsrf_token : str) (srv : site)
     (sent : list request),
     bump_collects (lib := Samples.python_with parser) trade_info data →
     data !! lit "code" = Some code →
     data !! lit "xsrf_token" = Some xsrf_token →
     resp_text (srv sent (bump_request self code xsrf_token)) =
       Samples.cooldown_body →
     run srv sent (bump (lib := Samples.python_with parser) self trade_info) =
     (sent ++ [bump_request self code xsrf_token],
      Raised (TradeNotReadyError (id trade_info) (title trade_info) 7%Z
                (lit "Trade " ++ id trade_info ++ lit " is not ready")))).
Proof.
  split.
  - intros lib self trade_info data code xsrf_token srv sent minutes
      Hcollects Hcode Hxsrf body Hnotice Henvelope.
    rewrite (bump_run self trade_info data code xsrf_token srv sent) by done.
    cbv zeta. fold body. rewrite Hnotice.
    apply read_cooldown_envelope in Henvelope. by rewrite Henvelope.
  - intros parser self trade_info data code xsrf_token srv sent
      Hcollects Hcode Hxsrf Hbody.
    rewrite (bump_run self trade_info data code xsrf_token srv sent) by done.
    cbv zeta. rewrite Hbody.
    assert (PyStr.contains (lit "Please wait another") Samples.cooldown_body
            = true) as -> by (vm_compute; reflexivity).
    assert (read_cooldown (lib := Samples.python_with parser)
              Samples.cooldown_body = Returned 7%Z) as ->
      by (vm_compute; reflexivity).
    reflexivity.
Qed.

Lemma bump_cooldown_sample :
  run (Samples.serving [(Samples.bump_post, Samples.cooldown_body)]) []
    (bump (lib := Samples.python) Samples.plugin Samples.trade) =
  ([bump_request Samples.plugin (lit "k9XyZ") (lit "abc123")],
   Raised (TradeNotReadyError (lit "123") (lit "some long trade title ...") 7%Z
             (lit "Trade 123 is not ready"))).
Proof.
  refine (proj1 bump_cooldown Samples.python Samples.plugin Samples.trade
            {[ lit "xsrf_token" := lit "abc123"; lit "code" := lit "k9XyZ" ]}
            (lit "k9XyZ") (lit "abc123")
            (Samples.serving [(Samples.bump_post, Samples.cooldown_body)])
            [] 7%Z _ _ _ _ _).
  - split; [vm_compute; eexists; reflexivity|].
    split; [vm_compute; reflexivity|].
    eexists. split; [vm_compute; reflexivity|].
    split; [|vm_compute; reflexivity].
    vm_compute. repeat constructor; eexists; reflexivity.
  - vm_compute. reflexivity.
  - vm_compute. reflexivity.
  - vm_compute. reflexivity.
  - vm_compute. reflexivity.
Defined.

(** C3 as the claim words it fails: with two spaces before the number
    the fourth blank-separated token of the heading is still 7, and the
    body contains the notice, yet [bump] cuts at each space, finds an
    empty fourth piece and raises [ValueError]. *)
Lemma bump_cooldown_two_spaces :
  PyStr.contains (lit "Please wait another") Samples.cooldown_body_two_spaces
    = true ∧
  envelope_minutes_blank (lib := Samples.python) Samples.cooldown_body_two_spaces
    = Some 7%Z ∧
  run (Samples.serving [(Samples.bump_post, Samples.cooldown_body_two_spaces)]) []
    (bump (lib := Samples.python) Samples.plugin Samples.trade) =
  ([bump_request Samples.plugin (lit "k9XyZ") (lit "abc123")], Raised ValueError).
Proof. vm_compute. done. Qed.

(** C5, as amended. When the body of the response to the bump request
    does not contain "Please wait another", [bump] makes one more
    request, a POST without data to the trades listing, and returns
    whether the id of the trade occurs in the text of that page. [bump]
    returns in no other way: whenever it returns a value, the stored page
    let it collect both tokens, the body of the bump response lacked the
    notice, and the value is that of the test on the listing. *)
Theorem bump_confirms {lib : Builtins} (self : SteamTrades)
    (trade_info : TradeInfo) (srv : site) (sent : list request) :
  (∀ (data : gmap str str) (code xsrf_token : str),
     bump_collects trade_info data →
     data !! lit "code" = Some code →
     data !! lit "xsrf_token" = Some xsrf_token →
     let request := bump_request self code xsrf_token in
     let listing :=
       Request POST (server self ++ lit "/trades") (headers self) None in
     PyStr.contains (lit "Please wait another") (resp_text (srv sent request))
       = false →
     run srv sent (bump self trade_info) =
     (sent ++ [request; listing],
      Returned (PyStr.contains (id trade_info)
                  (resp_text (srv (sent ++ [request]) listing))))) ∧
  (∀ b : bool,
     (run srv sent (bump self trade_info)).2 = Returned b →
     ∃ (data : gmap str str) (code xsrf_token : str),
       bump_collects trade_info data ∧
       data !! lit "code" = Some code ∧
       data !! lit "xsrf_token" = Some xsrf_token ∧
       let request := bump_request self code xsrf_token in
       let listing :=
         Request POST (server self ++ lit "/trades") (headers self) None in
       PyStr.contains (lit "Please wait another") (resp_text (srv sent request))
         = false ∧
       (run srv sent (bump self trade_info)).1 = sent ++ [request; listing] ∧
       b = PyStr.contains (id trade_info)
             (resp_text (srv (sent ++ [request]) listing))).
Proof.
  split.
  - intros data code xsrf_token Hcollects Hcode Hxsrf request listing Hnotice.
    rewrite (bump_run self trade_info data code xsrf_token srv sent) by done.
    cbv zeta. fold request. by rewrite Hnotice.
  - intros b Hreturned.
    destruct (Bs4.find (lit "a") (Some (lit "nav_avatar"))
                (BeautifulSoup (html trade_info))) as [avatar|] eqn:Havatar;
      [|unfold bump in Hreturned; by rewrite Havatar in Hreturned].
    destruct (Bs4.find (lit "div") (Some (lit "js_trade_open"))
                (BeautifulSoup (html trade_info))) as [marker|] eqn:Hmarker;
      [unfold bump in Hreturned; by rewrite Havatar, Hmarker in Hreturned|].
    destruct (Bs4.find (lit "form") None (BeautifulSoup (html trade_info)))
      as [form|] eqn:Hform;
      [|unfold bump in Hreturned;
        by rewrite Havatar, Hmarker, Hform in Hreturned].
    destruct (decide (Forall complete_input (Bs4.findAll (lit "input") None form)))
      as [Hall|Hnot].
    + assert (bump_collects trade_info
                (form_fields (Bs4.findAll (lit "input") None form)))
        as Hcollects.
      { split; [by eexists|]. split; [done|]. by exists form. }
      set (data := form_fields (Bs4.findAll (lit "input") None form)) in *.
      destruct (data !! lit "code") as [code|] eqn:Hcode.
      * destruct (data !! lit "xsrf_token") as [xsrf_token|] eqn:Hxsrf.
        -- exists data, code, xsrf_token.
           rewrite (bump_run self trade_info data code xsrf_token srv sent)
             in * by done.
           cbv zeta in *.
           destruct (PyStr.contains (lit "Please wait another") _).
           ++ by destruct (read_cooldown _).
           ++ injection Hreturned as <-. done.
        -- rewrite (bump_without_xsrf_token self trade_info data) in Hreturned;
             by rewrite ?Hcode.
      * by rewrite (bump_without_code self trade_info data) in Hreturned.
    + destruct (bump_incomplete_input self trade_info form) as [key Hkey];
        [by eexists|done..|].
      by rewrite Hkey in Hreturned.
Qed.

Lemma bump_confirms_sample :
  run (Samples.serving [(Samples.bump_post, lit "ok");
                        (Samples.listing_post, Samples.listing_html)]) []
    (bump (lib := Samples.python) Samples.plugin Samples.trade) =
  ([bump_request Samples.plugin (lit "k9XyZ") (lit "abc123");
    Request POST (lit "https://www.steamtrades.com/trades") ∅ None],
   Returned true).
Proof.
  refine (proj1 (bump_confirms (lib := Samples.python) Samples.plugin
                   Samples.trade
                   (Samples.serving [(Samples.bump_post, lit "ok");
                                     (Samples.listing_post, Samples.listing_html)])
                   [])
            {[ lit "xsrf_token" := lit "abc123"; lit "code" := lit "k9XyZ" ]}
            (lit "k9XyZ") (lit "abc123") _ _ _ _).
  - split; [vm_compute; eexists; reflexivity|].
    split; [vm_compute; reflexivity|].
    eexists. split; [vm_compute; reflexivity|].
    split; [|vm_compute; reflexivity].
    vm_compute. repeat constructor; eexists; reflexivity.
  - vm_compute. reflexivity.
  - vm_compute. reflexivity.
  - vm_compute. reflexivity.
Defined.

(** C5 as the claim words it fails: on a bump that succeeds, the
    requests are two POSTs, the second to the listing; no GET is made. *)
Lemma bump_listing_request_is_a_post :
  let outcome :=
    run (Samples.serving [(Samples.bump_post, lit "ok");
                          (Samples.listing_post, Samples.listing_html)]) []
      (bump (lib := Samples.python) Samples.plugin Samples.trade) in
  outcome.2 = Returned true ∧
  (req_method <$> outcome.1) = [POST; POST] ∧
  (req_url <$> outcome.1) !! 1%nat = Some (lit "https://www.steamtrades.com/trades") ∧
  ¬ ∃ r, r ∈ outcome.1 ∧ req_method r = GET.
Proof.
  cbv zeta. split; [vm_compute; reflexivity|].
  assert ((req_method <$>
            (run (Samples.serving [(Samples.bump_post, lit "ok");
                                   (Samples.listing_post, Samples.listing_html)]) []
               (bump (lib := Samples.python) Samples.plugin Samples.trade)).1)
          = [POST; POST]) as Hmethods by (vm_compute; reflexivity).
  split; [done|]. split; [vm_compute; reflexivity|].
  intros (r & Hr & Hget).
  apply (list_elem_of_fmap_2 req_method) in Hr. rewrite Hmethods, Hget in Hr.
  repeat (apply elem_of_cons in Hr as [Hr|Hr]; [done|]).
  by apply elem_of_nil in Hr.
Qed.

(** C10. When the body of the response to the bump request contains
    "Please wait another" without being a cooldown envelope, [bump] raises
    a built-in exception after that one request: the decoding error of
    the body, a failed key, index, item or method lookup, or the
    [ValueError] of the integer. It returns no boolean and raises no
    [TradeNotReadyError] nor any other classified failure. *)
Theorem bump_malformed_cooldown {lib : Builtins} (self : SteamTrades)
    (trade_info : TradeInfo) (data : gmap str str) (code xsrf_token : str)
    (srv : site) (sent : list request) :
  bump_collects trade_info data →
  data !! lit "code" = Some code →
  data !! lit "xsrf_token" = Some xsrf_token →
  let body := resp_text (srv sent (bump_request self code xsrf_token)) in
  PyStr.contains (lit "Please wait another") body = true →
  envelope_minutes body = None →
  ∃ e,
    run srv sent (bump self trade_info) =
      (sent ++ [bump_request self code xsrf_token], Raised e) ∧
    e ∈ [JSONDecodeError; KeyError (SubStr (lit "popup_heading_h2"));
         KeyError (SubInt 0); IndexError; TypeError; AttributeError;
         ValueError] ∧
    classified e = false ∧
    (∀ id title minutes message,
       e ≠ TradeNotReadyError id title minutes message) ∧
    (∀ b : bool, (run srv sent (bump self trade_info)).2 ≠ Returned b).
Proof.
  intros Hcollects Hcode Hxsrf body Hnotice Henvelope.
  rewrite (bump_run self trade_info data code xsrf_token srv sent) by done.
  cbv zeta. fold body. rewrite Hnotice.
  destruct (read_cooldown body) as [minutes|e] eqn:Hread.
  - apply read_cooldown_envelope in Hread. congruence.
  - exists e. split; [done|].
    pose proof (read_cooldown_raises body e Hread) as He.
    split; [done|].
    assert (classified e = false) as Hunclassified.
    { repeat (apply elem_of_cons in He as [->|He]; [done|]).
      by apply elem_of_nil in He. }
    split; [done|]. split; [|done].
    intros ???? ->. done.
Qed.

Lemma bump_malformed_cooldown_sample :
  ∃ e,
    run (Samples.serving [(Samples.bump_post, Samples.cooldown_text)]) []
      (bump (lib := Samples.python) Samples.plugin Samples.trade) =
      ([bump_request Samples.plugin (lit "k9XyZ") (lit "abc123")], Raised e) ∧
    e ∈ [JSONDecodeError; KeyError (SubStr (lit "popup_heading_h2"));
         KeyError (SubInt 0); IndexError; TypeError; AttributeError;
         ValueError] ∧
    classified e = false ∧
    (∀ id title minutes message,
       e ≠ TradeNotReadyError id title minutes message) ∧
    (∀ b : bool,
       (run (Samples.serving [(Samples.bump_post, Samples.cooldown_text)]) []
          (bump (lib := Samples.python) Samples.plugin Samples.trade)).2
       ≠ Returned b).
Proof.
  refine (bump_malformed_cooldown (lib := Samples.python) Samples.plugin
            Samples.trade
            {[ lit "xsrf_token" := lit "abc123"; lit "code" := lit "k9XyZ" ]}
            (lit "k9XyZ") (lit "abc123")
            (Samples.serving [(Samples.bump_post, Samples.cooldown_text)])
            [] _ _ _ _ _).
  - split; [vm_compute; eexists; reflexivity|].
    split; [vm_compute; reflexivity|].
    eexists. split; [vm_compute; reflexivity|].
    split; [|vm_compute; reflexivity].
    vm_compute. repeat constructor; eexists; reflexivity.
  - vm_compute. reflexivity.
  - vm_compute. reflexivity.
  - vm_compute. reflexivity.
  - vm_compute. reflexivity.
Defined.

(** ** [get_trade_info] *)

(** C6. [get_trade_info] makes one GET and builds the [TradeInfo] from
    the response alone: its id is the piece at index 2 of the path of the
    response URL cut at each slash (for [/trade/123/title], the second
    segment), whatever [trade_id] the caller gave; its title is what
    follows the last slash, with dashes turned into spaces, cut to 22
    characters and followed by three dots in every case, so the title is
    three characters longer than the shorter of 22 and the last segment.
    A path with fewer than three pieces raises [IndexError]. The path
    [/trade/123/some-long-trade-title-here] gives the id [123] and the
    title [some long trade title ...]. *)
Theorem get_trade_info_from_url (self : SteamTrades) (trade_id : str)
    (srv : site) (sent : list request) :
  let request :=
    Request GET (server self ++ lit "/trade/" ++ trade_id ++ lit "/")
      (headers self) None in
  let path := url_path (srv sent request) in
  let title :=
    take 22 (PyStr.replace 45 32 (PyStr.basename path)) ++ lit "..." in
  run srv sent (get_trade_info self trade_id) =
    (sent ++ [request],
     match PyStr.split 47 path !! 2%nat with
     | Some id_ => Returned (mkTradeInfo id_ title (resp_text (srv sent request)))
     | None => Raised IndexError
     end) ∧
  length title = (22 `min` length (PyStr.basename path) + 3)%nat ∧
  drop (length title - 3) title = lit "..." ∧
  (path = lit "/trade/123/some-long-trade-title-here" →
   PyStr.split 47 path !! 2%nat = Some (lit "123") ∧
   title = lit "some long trade title ...").
Proof.
  intros request path title.
  split; [|split; [|split; [|intros Hpath; split]]].
  - unfold get_trade_info, http_get. rewrite bind_Await. cbn [run].
    rewrite bind_Ret. fold request path. unfold list_item.
    destruct (PyStr.split 47 path !! 2%nat) as [id_|]; reflexivity.
  - unfold title, PyStr.replace.
    rewrite length_app, length_take, length_fmap. reflexivity.
  - unfold title. rewrite length_app.
    change (length (lit "...")) with 3%nat.
    rewrite Nat.add_sub. by rewrite drop_app_length.
  - rewrite Hpath. vm_compute. reflexivity.
  - unfold title. rewrite Hpath. vm_compute. reflexivity.
Qed.

Lemma get_trade_info_sample :
  let srv : site :=
    λ _ _, Response (lit "/trade/123/some-long-trade-title-here") (lit "<html>") in
  run srv [] (get_trade_info Samples.plugin (lit "SOME-slug")) =
  ([Request GET (lit "https://www.steamtrades.com/trade/SOME-slug/") ∅ None],
   Returned (mkTradeInfo (lit "123") (lit "some long trade title ...")
               (lit "<html>"))) ∧
  PyStr.split 47 (lit "/trade/123/some-long-trade-title-here") !! 2%nat
    = Some (lit "123") ∧
  take 22 (PyStr.replace 45 32
             (PyStr.basename (lit "/trade/123/some-long-trade-title-here")))
    ++ lit "..." = lit "some long trade title ...".
Proof.
  intros srv.
  pose proof (get_trade_info_from_url Samples.plugin (lit "SOME-slug") srv [])
    as (Hrun & _ & _ & Hsample).
  split; [exact Hrun|]. exact (Hsample eq_refl).
Defined.

(** ** [do_login] *)

Lemma mentions_shows (found : option Bs4.node) (needle : str) :
  mentions found needle = true ↔ shows found needle.
Proof.
  unfold mentions, shows. destruct found as [element|].
  - split; [by exists element|]. by intros (? & [= <-] & ?).
  - split; [done|]. by intros (? & ? & ?).
Qed.

Lemma mentions_not_shows (found : option Bs4.node) (needle : str) :
  mentions found needle = false ↔ ¬ shows found needle.
Proof.
  rewrite <- mentions_shows. by destruct (mentions found needle).
Qed.

(** [do_login] on a login page without a form: one request, then the
    tests of the blocked branch in their order. *)
Lemma do_login_run_blocked {lib : Builtins} (self : SteamTrades) (srv : site)
    (sent : list request) :
  let request := Request GET (login_page self) (headers self) None in
  let html := BeautifulSoup (resp_text (srv sent request)) in
  let nav_button := Bs4.find (lit "a") (Some (lit "nav__button")) html in
  let warning := Bs4.find (lit "div") (Some (lit "notification--warning")) html in
  Bs4.find (lit "form") None html = None →
  run srv sent (do_login self) =
  (sent ++ [request],
   Raised
     (if mentions nav_button (lit "Suspensions")
      then UserSuspended (lit "Unable to login, user is suspended.")
      else if mentions warning (lit "Please wait")
      then TooFast (lit "Wait 15 seconds before try again.")
      else if mentions warning (lit "public Steam profile")
      then PrivateProfile (lit "Your profile must be public to use steamtrades.")
      else LoginError (lit "Unable to log-in on steamtrades"))).
Proof.
  intros request html nav_button warning Hform.
  unfold do_login, http_get. rewrite bind_Await. cbn [run]. rewrite bind_Ret.
  cbv zeta. fold request html. rewrite Hform. fold nav_button warning.
  destruct (mentions nav_button _); [reflexivity|].
  destruct (mentions warning (lit "Please wait")); [reflexivity|].
  destruct (mentions warning _); reflexivity.
Qed.

(** [do_login] on a login page with a form: the fields of the form are
    posted, and the page that comes back decides. *)
Lemma do_login_run_form {lib : Builtins} (self : SteamTrades) (srv : site)
    (sent : list request) (form : Bs4.node) :
  let request := Request GET (login_page self) (headers self) None in
  let data := form_fields (Bs4.findAll (lit "input") None form) in
  let submit :=
    Request POST (openid_url self ++ lit "/login") (headers self) (Some data) in
  let html := BeautifulSoup (resp_text (srv (sent ++ [request]) submit)) in
  let nav_button := Bs4.find (lit "a") (Some (lit "nav__button")) html in
  let notification := Bs4.find (lit "div") (Some (lit "notification")) html in
  let warning := Bs4.find (lit "div") (Some (lit "notification--warning")) html in
  Bs4.find (lit "form") None (BeautifulSoup (resp_text (srv sent request)))
    = Some form →
  run srv sent (do_login self) =
  (sent ++ [request; submit],
   match Bs4.find (lit "a") (Some (lit "nav_avatar")) html with
   | Some avatar =>
       if mentions nav_button (lit "Suspensions")
       then Raised (UserSuspended (lit "Unable to login, user is suspended."))
       else
         match Bs4.getitem avatar (lit "href") with
         | None => Raised (KeyError (SubStr (lit "href")))
         | Some href =>
             match PyStr.split 47 href !! 2%nat with
             | None => Raised IndexError
             | Some steamid =>
                 Returned (update (<[lit "steamid" := PyStr steamid]>
                                     {[ lit "success" := PyBool true ]}) data)
             end
         end
   | None =>
       Raised
         (if mentions notification (lit "Steam level")
          then UserLevelError (lit "Steam level must be greater to 1.")
          else if mentions warning (lit "public Steam profile")
          then PrivateProfile (lit "Your profile must be public to use steamtrades.")
          else LoginError (lit "Unable to log-in on steamtrades"))
   end).
Proof.
  intros request data submit html nav_button notification warning Hform.
  unfold do_login, http_get. rewrite bind_Await. cbn [run]. rewrite bind_Ret.
  cbv zeta. fold request. rewrite Hform.
  rewrite for_each_login_input, bind_Ret. fold (form_fields (Bs4.findAll (lit "input") None form)).
  fold data. unfold http_post. rewrite bind_Await. cbn [run]. rewrite bind_Ret.
  fold submit html. fold nav_button notification warning.
  rewrite <- app_assoc. cbn [app].
  destruct (Bs4.find (lit "a") (Some (lit "nav_avatar")) html) as [avatar|].
  - destruct (mentions nav_button _); [reflexivity|].
    unfold tag_item.
    destruct (Bs4.getitem avatar (lit "href")) as [href|]; [|reflexivity].
    rewrite bind_Ret. unfold list_item.
    destruct (PyStr.split 47 href !! 2%nat) as [steamid|]; reflexivity.
  - destruct (mentions notification _); [reflexivity|].
    destruct (mentions warning _); reflexivity.
Qed.

(** C1, as amended. When the login page has no form, [do_login] makes
    that one request and raises exactly one failure, found in this order:
    the first navigation badge of the page (the first [a.nav__button] in
    document order, the one [find] returns) shows "Suspensions":
    [UserSuspended]; else the first warning banner (the first
    [div.notification--warning], the one [find] returns) shows
    "Please wait": [TooFast], whether or not it also shows
    "public Steam profile"; else that banner shows "public Steam
    profile": [PrivateProfile]; else the plain [LoginError]. Later badges
    and banners are not looked at. In every case the exception is
    [LoginError] or one of its subclasses. *)
Theorem do_login_blocked {lib : Builtins} (self : SteamTrades) (srv : site)
    (sent : list request) :
  let request := Request GET (login_page self) (headers self) None in
  let html := BeautifulSoup (resp_text (srv sent request)) in
  let nav_button := Bs4.find (lit "a") (Some (lit "nav__button")) html in
  let warning := Bs4.find (lit "div") (Some (lit "notification--warning")) html in
  Bs4.find (lit "form") None html = None →
  (shows nav_button (lit "Suspensions") →
   run srv sent (do_login self) =
   (sent ++ [request],
    Raised (UserSuspended (lit "Unable to login, user is suspended.")))) ∧
  (¬ shows nav_button (lit "Suspensions") →
   shows warning (lit "Please wait") →
   run srv sent (do_login self) =
   (sent ++ [request], Raised (TooFast (lit "Wait 15 seconds before try again.")))) ∧
  (¬ shows nav_button (lit "Suspensions") →
   ¬ shows warning (lit "Please wait") →
   shows warning (lit "public Steam profile") →
   run srv sent (do_login self) =
   (sent ++ [request],
    Raised (PrivateProfile (lit "Your profile must be public to use steamtrades.")))) ∧
  (¬ shows nav_button (lit "Suspensions") →
   ¬ shows warning (lit "Please wait") →
   ¬ shows warning (lit "public Steam profile") →
   run srv sent (do_login self) =
   (sent ++ [request], Raised (LoginError (lit "Unable to log-in on steamtrades")))) ∧
  (∃ e, run srv sent (do_login self) = (sent ++ [request], Raised e) ∧
        is_login_error e = true ∧ classified e = true).
Proof.
  intros request html nav_button warning Hform.
  rewrite (do_login_run_blocked self srv sent Hform). cbv zeta.
  subst request html nav_button warning.
  split; [|split; [|split; [|split]]].
  5: { eexists. split; [reflexivity|]. by repeat case_match. }
  - intros Hbadge%mentions_shows. by rewrite Hbadge.
  - intros Hbadge%mentions_not_shows Hwait%mentions_shows.
    by rewrite Hbadge, Hwait.
  - intros Hbadge%mentions_not_shows Hwait%mentions_not_shows
      Hprofile%mentions_shows.
    by rewrite Hbadge, Hwait, Hprofile.
  - intros Hbadge%mentions_not_shows Hwait%mentions_not_shows
      Hprofile%mentions_not_shows.
    by rewrite Hbadge, Hwait, Hprofile.
Qed.

Lemma do_login_blocked_sample :
  run (Samples.serving [(Samples.login_get, Samples.suspended_html)]) []
    (do_login (lib := Samples.python) Samples.plugin) =
  ([Request GET (lit "https://steamtrades.com/?login") ∅ None],
   Raised (UserSuspended (lit "Unable to login, user is suspended."))) ∧
  run (Samples.serving [(Samples.login_get, Samples.too_fast_html)]) []
    (do_login (lib := Samples.python) Samples.plugin) =
  ([Request GET (lit "https://steamtrades.com/?login") ∅ None],
   Raised (TooFast (lit "Wait 15 seconds before try again."))) ∧
  run (Samples.serving [(Samples.login_get, Samples.private_html)]) []
    (do_login (lib := Samples.python) Samples.plugin) =
  ([Request GET (lit "https://steamtrades.com/?login") ∅ None],
   Raised (PrivateProfile (lit "Your profile must be public to use steamtrades."))) ∧
  run (Samples.serving [(Samples.login_get, Samples.unavailable_html)]) []
    (do_login (lib := Samples.python) Samples.plugin) =
  ([Request GET (lit "https://steamtrades.com/?login") ∅ None],
   Raised (LoginError (lit "Unable to log-in on steamtrades"))).
Proof.
  assert (∀ found needle, mentions found needle = true → shows found needle)
    as Hshows by (intros; by apply mentions_shows).
  assert (∀ found needle, mentions found needle = false → ¬ shows found needle)
    as Hnot by (intros; by apply mentions_not_shows).
  repeat apply conj.
  - refine (proj1 (do_login_blocked (lib := Samples.python) Samples.plugin
              (Samples.serving [(Samples.login_get, Samples.suspended_html)])
              [] _) _).
    + vm_compute. reflexivity.
    + apply Hshows. vm_compute. reflexivity.
  - refine (proj1 (proj2 (do_login_blocked (lib := Samples.python) Samples.plugin
              (Samples.serving [(Samples.login_get, Samples.too_fast_html)])
              [] _)) _ _).
    + vm_compute. reflexivity.
    + apply Hnot. vm_compute. reflexivity.
    + apply Hshows. vm_compute. reflexivity.
  - refine (proj1 (proj2 (proj2 (do_login_blocked (lib := Samples.python)
              Samples.plugin
              (Samples.serving [(Samples.login_get, Samples.private_html)])
              [] _))) _ _ _).
    + vm_compute. reflexivity.
    + apply Hnot. vm_compute. reflexivity.
    + apply Hnot. vm_compute. reflexivity.
    + apply Hshows. vm_compute. reflexivity.
  - refine (proj1 (proj2 (proj2 (proj2 (do_login_blocked (lib := Samples.python)
              Samples.plugin
              (Samples.serving [(Samples.login_get, Samples.unavailable_html)])
              [] _)))) _ _ _).
    + vm_compute. reflexivity.
    + apply Hnot. vm_compute. reflexivity.
    + apply Hnot. vm_compute. reflexivity.
    + apply Hnot. vm_compute. reflexivity.
Defined.

(** C1 as the claim words it fails: a navigation badge whose text
    contains "Suspensions" exists on a page without a form, but it is the
    second badge of the page, and [do_login] raises the plain
    [LoginError]; likewise a second warning banner that contains
    "Please wait", on a page without badges, does not give [TooFast]. *)
Lemma do_login_blocked_second_badge :
  (Bs4.find (lit "form") None Samples.second_badge_tree = None ∧
   some_shows (lit "a") (Some (lit "nav__button")) Samples.second_badge_tree
     (lit "Suspensions") ∧
   run (Samples.serving [(Samples.login_get, Samples.second_badge_html)]) []
     (do_login (lib := Samples.python) Samples.plugin) =
   ([Request GET (lit "https://steamtrades.com/?login") ∅ None],
    Raised (LoginError (lit "Unable to log-in on steamtrades")))) ∧
  (Bs4.find (lit "form") None Samples.second_banner_tree = None ∧
   ¬ some_shows (lit "a") (Some (lit "nav__button")) Samples.second_banner_tree
       (lit "Suspensions") ∧
   some_shows (lit "div") (Some (lit "notification--warning"))
     Samples.second_banner_tree (lit "Please wait") ∧
   run (Samples.serving [(Samples.login_get, Samples.second_banner_html)]) []
     (do_login (lib := Samples.python) Samples.plugin) =
   ([Request GET (lit "https://steamtrades.com/?login") ∅ None],
    Raised (LoginError (lit "Unable to log-in on steamtrades")))).
Proof.
  split; [split; [|split]|split; [|split; [|split]]].
  - vm_compute. reflexivity.
  - exists Samples.suspensions_badge. split; [|split].
    + apply list_elem_of_In. vm_compute. tauto.
    + vm_compute. reflexivity.
    + vm_compute. reflexivity.
  - vm_compute. reflexivity.
  - vm_compute. reflexivity.
  - intros (element & Helement & Hmatch & _).
    apply list_elem_of_In in Helement. vm_compute in Helement.
    destruct Helement as [<-|[<-|[<-|[<-|[]]]]]; vm_compute in Hmatch;
      discriminate Hmatch.
  - exists (Samples.warning_banner "Please wait 15 seconds."). split; [|split].
    + apply list_elem_of_In. vm_compute. tauto.
    + vm_compute. reflexivity.
    + vm_compute. reflexivity.
  - vm_compute. reflexivity.
Qed.

(** C2, as amended. When the login page has a form, [do_login] posts its
    fields and reads the page that comes back. With an avatar link and
    the first navigation badge of the page (the first [a.nav__button] in
    document order, the one [find] returns) showing "Suspensions" it
    raises [UserSuspended]. With an avatar link and a first badge that
    does not show it, or no badge, the steamid is the piece at index 2,
    the third piece, of the link's [href] cut at each slash: [do_login]
    returns the payload built on it, and a link without [href] or with
    fewer pieces raises the [KeyError] or [IndexError] of that lookup.
    Without an avatar link it raises [UserLevelError] when the first
    notification shows "Steam level", else [PrivateProfile] when the
    first warning banner shows "public Steam profile", else the plain
    [LoginError]. *)
Theorem do_login_answer {lib : Builtins} (self : SteamTrades) (srv : site)
    (sent : list request) (form : Bs4.node) :
  let request := Request GET (login_page self) (headers self) None in
  let data := form_fields (Bs4.findAll (lit "input") None form) in
  let submit :=
    Request POST (openid_url self ++ lit "/login") (headers self) (Some data) in
  let html := BeautifulSoup (resp_text (srv (sent ++ [request]) submit)) in
  let avatar := Bs4.find (lit "a") (Some (lit "nav_avatar")) html in
  let nav_button := Bs4.find (lit "a") (Some (lit "nav__button")) html in
  let notification := Bs4.find (lit "div") (Some (lit "notification")) html in
  let warning := Bs4.find (lit "div") (Some (lit "notification--warning")) html in
  Bs4.find (lit "form") None (BeautifulSoup (resp_text (srv sent request)))
    = Some form →
  (is_Some avatar → shows nav_button (lit "Suspensions") →
   run srv sent (do_login self) =
   (sent ++ [request; submit],
    Raised (UserSuspended (lit "Unable to login, user is suspended.")))) ∧
  (∀ link, avatar = Some link → ¬ shows nav_button (lit "Suspensions") →
   run srv sent (do_login self) =
   (sent ++ [request; submit],
    match Bs4.getitem link (lit "href") with
    | None => Raised (KeyError (SubStr (lit "href")))
    | Some href =>
        match PyStr.split 47 href !! 2%nat with
        | None => Raised IndexError
        | Some steamid =>
            Returned (update (<[lit "steamid" := PyStr steamid]>
                                {[ lit "success" := PyBool true ]}) data)
        end
    end)) ∧
  (avatar = None → shows notification (lit "Steam level") →
   run srv sent (do_login self) =
   (sent ++ [request; submit],
    Raised (UserLevelError (lit "Steam level must be greater to 1.")))) ∧
  (avatar = None → ¬ shows notification (lit "Steam level") →
   shows warning (lit "public Steam profile") →
   run srv sent (do_login self) =
   (sent ++ [request; submit],
    Raised (PrivateProfile (lit "Your profile must be public to use steamtrades.")))) ∧
  (avatar = None → ¬ shows notification (lit "Steam level") →
   ¬ shows warning (lit "public Steam profile") →
   run srv sent (do_login self) =
   (sent ++ [request; submit],
    Raised (LoginError (lit "Unable to log-in on steamtrades")))).
Proof.
  intros request data submit html avatar nav_button notification warning Hform.
  rewrite (do_login_run_form self srv sent form Hform). cbv zeta.
  subst request data submit html avatar nav_button notification warning.
  split; [|split; [|split; [|split]]].
  - intros [link Hlink] Hbadge%mentions_shows. by rewrite Hlink, Hbadge.
  - intros link Hlink Hbadge%mentions_not_shows. by rewrite Hlink, Hbadge.
  - intros Havatar Hlevel%mentions_shows. by rewrite Havatar, Hlevel.
  - intros Havatar Hlevel%mentions_not_shows Hprofile%mentions_shows.
    by rewrite Havatar, Hlevel, Hprofile.
  - intros Havatar Hlevel%mentions_not_shows Hprofile%mentions_not_shows.
    by rewrite Havatar, Hlevel, Hprofile.
Qed.

Lemma do_login_answer_sample :
  run (Samples.serving [(Samples.login_get, Samples.login_form_html);
                        (Samples.login_post, Samples.signed_in_suspended_html)]) []
    (do_login (lib := Samples.python) Samples.plugin) =
  ([Request GET (lit "https://steamtrades.com/?login") ∅ None;
    Request POST (lit "https://steamcommunity.com/openid/login") ∅
      (Some {[ lit "openid.mode" := lit "checkid_setup";
               lit "nonce" := lit "second" ]})],
   Raised (UserSuspended (lit "Unable to login, user is suspended."))) ∧
  run (Samples.serving [(Samples.login_get, Samples.login_form_html);
                        (Samples.login_post, Samples.signed_in_html)]) []
    (do_login (lib := Samples.python) Samples.plugin) =
  ([Request GET (lit "https://steamtrades.com/?login") ∅ None;
    Request POST (lit "https://steamcommunity.com/openid/login") ∅
      (Some {[ lit "openid.mode" := lit "checkid_setup";
               lit "nonce" := lit "second" ]})],
   Returned {[ lit "success" := PyBool true;
               lit "steamid" := PyStr (lit "76561198000000001");
               lit "openid.mode" := PyStr (lit "checkid_setup");
               lit "nonce" := PyStr (lit "second") ]}) ∧
  run (Samples.serving [(Samples.login_get, Samples.login_form_html);
                        (Samples.login_post, Samples.low_level_html)]) []
    (do_login (lib := Samples.python) Samples.plugin) =
  ([Request GET (lit "https://steamtrades.com/?login") ∅ None;
    Request POST (lit "https://steamcommunity.com/openid/login") ∅
      (Some {[ lit "openid.mode" := lit "checkid_setup";
               lit "nonce" := lit "second" ]})],
   Raised (UserLevelError (lit "Steam level must be greater to 1."))).
Proof.
  assert (∀ found needle, mentions found needle = true → shows found needle)
    as Hshows by (intros; by apply mentions_shows).
  assert (∀ found needle, mentions found needle = false → ¬ shows found needle)
    as Hnot by (intros; by apply mentions_not_shows).
  assert (Bs4.find (lit "form") None Samples.login_form_tree
          = Some (Bs4.Tag (lit "form") []
                    (list_to_map
                       [(lit "action", lit "https://steamcommunity.com/openid/login");
                        (lit "method", lit "post")])
                    [Samples.hidden_input "openid.mode" "checkid_setup";
                     Samples.hidden_input "nonce" "first";
                     Samples.hidden_input "nonce" "second";
                     Bs4.Tag (lit "input") [] {[ lit "type" := lit "submit" ]} []]))
    as Hform by (vm_compute; reflexivity).
  repeat apply conj.
  - refine (eq_trans (proj1 (do_login_answer (lib := Samples.python)
              Samples.plugin
              (Samples.serving [(Samples.login_get, Samples.login_form_html);
                                (Samples.login_post, Samples.signed_in_suspended_html)])
              [] _ Hform) _ _) _).
    + vm_compute. eexists. reflexivity.
    + apply Hshows. vm_compute. reflexivity.
    + vm_compute. reflexivity.
  - refine (eq_trans (proj1 (proj2 (do_login_answer (lib := Samples.python)
              Samples.plugin
              (Samples.serving [(Samples.login_get, Samples.login_form_html);
                                (Samples.login_post, Samples.signed_in_html)])
              [] _ Hform)) Samples.avatar_link _ _) _).
    + vm_compute. reflexivity.
    + apply Hnot. vm_compute. reflexivity.
    + vm_compute. reflexivity.
  - refine (eq_trans (proj1 (proj2 (proj2 (do_login_answer (lib := Samples.python)
              Samples.plugin
              (Samples.serving [(Samples.login_get, Samples.login_form_html);
                                (Samples.login_post, Samples.low_level_html)])
              [] _ Hform))) _ _) _).
    + vm_compute. reflexivity.
    + apply Hshows. vm_compute. reflexivity.
    + vm_compute. reflexivity.
Defined.

(** C2 as the claim words it fails: the page the POST leads to has the
    avatar link and a navigation badge that contains "Suspensions", but
    the badge is the second of the page, and [do_login] returns the
    payload instead of raising [UserSuspended]. *)
Lemma do_login_answer_second_badge :
  is_Some (Bs4.find (lit "a") (Some (lit "nav_avatar"))
             Samples.signed_in_second_badge_tree) ∧
  some_shows (lit "a") (Some (lit "nav__button"))
    Samples.signed_in_second_badge_tree (lit "Suspensions") ∧
  run (Samples.serving
         [(Samples.login_get, Samples.login_form_html);
          (Samples.login_post, Samples.signed_in_second_badge_html)]) []
    (do_login (lib := Samples.python) Samples.plugin) =
  ([Request GET (lit "https://steamtrades.com/?login") ∅ None;
    Request POST (lit "https://steamcommunity.com/openid/login") ∅
      (Some {[ lit "openid.mode" := lit "checkid_setup";
               lit "nonce" := lit "second" ]})],
   Returned {[ lit "success" := PyBool true;
               lit "steamid" := PyStr (lit "76561198000000001");
               lit "openid.mode" := PyStr (lit "checkid_setup");
               lit "nonce" := PyStr (lit "second") ]}).
Proof.
  split; [|split].
  - vm_compute. eexists. reflexivity.
  - exists Samples.suspensions_badge. split; [|split].
    + apply list_elem_of_In. vm_compute. tauto.
    + vm_compute. reflexivity.
    + vm_compute. reflexivity.
  - vm_compute. reflexivity.
Qed.

(** What [json_data.update(data)] holds under a key. *)
Lemma update_lookup (json_data : gmap str pyval) (data : gmap str str) (k : str) :
  update json_data data !! k =
  match data !! k with
  | Some value => Some (PyStr value)
  | None => json_data !! k
  end.
Proof.
  unfold update. rewrite lookup_union, lookup_fmap.
  destruct (data !! k); destruct (json_data !! k); reflexivity.
Qed.

(** C7, as amended. The mapping a successful [do_login] returns holds,
    under each name that an input of the login form with a name and a
    value bears, the value of the last such input, as a string; a name
    borne by several inputs appears once. Under [steamid] and [success],
    unless an input bears that name, it holds the steamid read from the
    avatar link and [True]. It holds nothing else. *)
Theorem do_login_payload {lib : Builtins} (self : SteamTrades) (srv : site)
    (sent : list request) (result : gmap str pyval) :
  (run srv sent (do_login self)).2 = Returned result →
  let request := Request GET (login_page self) (headers self) None in
  ∃ (form link : Bs4.node) (href steamid : str),
    let inputs := Bs4.findAll (lit "input") None form in
    let submit :=
      Request POST (openid_url self ++ lit "/login") (headers self)
        (Some (form_fields inputs)) in
    let html := BeautifulSoup (resp_text (srv (sent ++ [request]) submit)) in
    Bs4.find (lit "form") None (BeautifulSoup (resp_text (srv sent request)))
      = Some form ∧
    Bs4.find (lit "a") (Some (lit "nav_avatar")) html = Some link ∧
    Bs4.getitem link (lit "href") = Some href ∧
    PyStr.split 47 href !! 2%nat = Some steamid ∧
    (∀ k : str,
       result !! k =
       match field_value k inputs with
       | Some value => Some (PyStr value)
       | None =>
           if decide (k = lit "steamid") then Some (PyStr steamid)
           else if decide (k = lit "success") then Some (PyBool true)
           else None
       end) ∧
    (field_value (lit "success") inputs = None →
     result !! lit "success" = Some (PyBool true)) ∧
    (field_value (lit "steamid") inputs = None →
     result !! lit "steamid" = Some (PyStr steamid)).
Proof.
  intros Hreturned request.
  destruct (Bs4.find (lit "form") None
              (BeautifulSoup (resp_text (srv sent request)))) as [form|] eqn:Hform.
  2: { by rewrite (do_login_run_blocked self srv sent Hform) in Hreturned. }
  rewrite (do_login_run_form self srv sent form Hform) in Hreturned.
  cbv zeta in Hreturned. fold request in Hreturned. cbn [snd] in Hreturned.
  destruct (Bs4.find (lit "a") (Some (lit "nav_avatar")) _) as [link|] eqn:Hlink;
    [|done].
  destruct (mentions _ _); [done|].
  destruct (Bs4.getitem link (lit "href")) as [href|] eqn:Hhref; [|done].
  destruct (PyStr.split 47 href !! 2%nat) as [steamid|] eqn:Hsteamid; [|done].
  injection Hreturned as <-.
  exists form, link, href, steamid. cbv zeta.
  assert (∀ k : str,
            update (<[lit "steamid" := PyStr steamid]>
                      {[ lit "success" := PyBool true ]})
              (form_fields (Bs4.findAll (lit "input") None form)) !! k =
            match field_value k (Bs4.findAll (lit "input") None form) with
            | Some value => Some (PyStr value)
            | None =>
                if decide (k = lit "steamid") then Some (PyStr steamid)
                else if decide (k = lit "success") then Some (PyBool true)
                else None
            end) as Hlookup.
  { intros k. rewrite update_lookup, form_fields_lookup.
    destruct (field_value k _); [done|].
    rewrite lookup_insert. destruct (decide (lit "steamid" = k)) as [<-|Hk].
    - by rewrite decide_True.
    - rewrite decide_False by done. rewrite lookup_singleton.
      destruct (decide (lit "success" = k)) as [<-|Hk'].
      + by rewrite decide_True.
      + by rewrite decide_False. }
  repeat apply conj; try done.
  - intros Hnone. by rewrite Hlookup, Hnone.
  - intros Hnone. by rewrite Hlookup, Hnone.
Qed.

Lemma do_login_payload_sample :
  let srv := Samples.serving [(Samples.login_get, Samples.login_form_html);
                              (Samples.login_post, Samples.signed_in_html)] in
  let result : gmap str pyval :=
    {[ lit "success" := PyBool true;
       lit "steamid" := PyStr (lit "76561198000000001");
       lit "openid.mode" := PyStr (lit "checkid_setup");
       lit "nonce" := PyStr (lit "second") ]} in
  let request := Request GET (lit "https://steamtrades.com/?login") ∅ None in
  (run srv [] (do_login (lib := Samples.python) Samples.plugin)).2
    = Returned result ∧
  ∃ (form link : Bs4.node) (href steamid : str),
    let inputs := Bs4.findAll (lit "input") None form in
    let submit :=
      Request POST (lit "https://steamcommunity.com/openid" ++ lit "/login") ∅
        (Some (form_fields inputs)) in
    let html := Samples.parse (resp_text (srv ([] ++ [request]) submit)) in
    Bs4.find (lit "form") None (Samples.parse (resp_text (srv [] request)))
      = Some form ∧
    Bs4.find (lit "a") (Some (lit "nav_avatar")) html = Some link ∧
    Bs4.getitem link (lit "href") = Some href ∧
    PyStr.split 47 href !! 2%nat = Some steamid ∧
    (∀ k : str,
       result !! k =
       match field_value k inputs with
       | Some value => Some (PyStr value)
       | None =>
           if decide (k = lit "steamid") then Some (PyStr steamid)
           else if decide (k = lit "success") then Some (PyBool true)
           else None
       end) ∧
    (field_value (lit "success") inputs = None →
     result !! lit "success" = Some (PyBool true)) ∧
    (field_value (lit "steamid") inputs = None →
     result !! lit "steamid" = Some (PyStr steamid)).
Proof.
  intros srv result request.
  assert ((run srv [] (do_login (lib := Samples.python) Samples.plugin)).2
          = Returned result) as Hreturned by (vm_compute; reflexivity).
  split; [exact Hreturned|].
  exact (do_login_payload (lib := Samples.python) Samples.plugin srv [] result
           Hreturned).
Defined.

(** C7 as the claim words it fails: the sample login form has two
    inputs called [nonce], with the values [first] and [second]; the
    mapping [do_login] returns has [second] under [nonce] and [first]
    nowhere. *)
Lemma do_login_drops_a_duplicate :
  let first := Samples.hidden_input "nonce" "first" in
  let second := Samples.hidden_input "nonce" "second" in
  ∃ (form : Bs4.node) (result : gmap str pyval),
    Bs4.find (lit "form") None (Samples.parse Samples.login_form_html)
      = Some form ∧
    first ∈ Bs4.findAll (lit "input") None form ∧
    second ∈ Bs4.findAll (lit "input") None form ∧
    (run (Samples.serving [(Samples.login_get, Samples.login_form_html);
                           (Samples.login_post, Samples.signed_in_html)]) []
       (do_login (lib := Samples.python) Samples.plugin)).2 = Returned result ∧
    result !! lit "nonce" = Some (PyStr (lit "second")) ∧
    ∀ k : str, result !! k ≠ Some (PyStr (lit "first")).
Proof.
  intros first second.
  exists (Bs4.Tag (lit "form") []
            (list_to_map
               [(lit "action", lit "https://steamcommunity.com/openid/login");
                (lit "method", lit "post")])
            [Samples.hidden_input "openid.mode" "checkid_setup"; first; second;
             Bs4.Tag (lit "input") [] {[ lit "type" := lit "submit" ]} []]).
  exists {[ lit "success" := PyBool true;
            lit "steamid" := PyStr (lit "76561198000000001");
            lit "openid.mode" := PyStr (lit "checkid_setup");
            lit "nonce" := PyStr (lit "second") ]}.
  split; [vm_compute; reflexivity|].
  split; [vm_compute; set_solver|].
  split; [vm_compute; set_solver|].
  split; [vm_compute; reflexivity|].
  split; [vm_compute; reflexivity|].
  intros k Hk.
  repeat (rewrite lookup_insert in Hk; case_decide; [by vm_compute in Hk|]).
  rewrite lookup_singleton in Hk. case_decide; [by vm_compute in Hk|done].
Qed.

(** * Further properties of the code *)

(** ** Cutting and searching strings *)

Lemma startswith_spec (p s : str) :
  PyStr.startswith p s = true ↔ ∃ post, s = p ++ post.
Proof.
  revert s. induction p as [|a p IH]; intros s.
  - split; [by exists s|done].
  - destruct s as [|b s]; cbn [PyStr.startswith].
    + split; [done|]. by intros (post & ?).
    + rewrite andb_true_iff, bool_decide_eq_true, IH. split.
      * intros (-> & post & ->). by exists post.
      * intros (post & [= -> ->]). split; [done|]. by exists post.
Qed.

(** [needle in hay] holds exactly when [hay] is some text, then
    [needle], then some text. *)
Lemma contains_spec (needle hay : str) :
  PyStr.contains needle hay = true ↔ ∃ pre post, hay = pre ++ needle ++ post.
Proof.
  induction hay as [|c hay IH]; cbn [PyStr.contains].
  - rewrite orb_false_r, startswith_spec. split.
    + intros (post & ->). by exists [], post.
    + intros (pre & post & Heq). symmetry in Heq.
      apply app_eq_nil in Heq as [-> Heq]. by exists post.
  - rewrite orb_true_iff, startswith_spec, IH. split.
    + intros [(post & ->)|(pre & post & ->)].
      * by exists [], post.
      * by exists (c :: pre), post.
    + intros (pre & post & Heq). destruct pre as [|c' pre].
      * left. by exists post.
      * right. injection Heq as -> ->. by exists pre, post.
Qed.

Lemma contains_empty (hay : str) : PyStr.contains [] hay = true.
Proof. apply contains_spec. by exists [], hay. Qed.

(** A piece is cut where the separator first occurs. *)
Lemma split_from_sep (sep : N) (a b : str) :
  sep ∉ a →
  ∀ cur, PyStr.split_from sep cur (a ++ sep :: b) =
         (reverse cur ++ a) :: PyStr.split_from sep [] b.
Proof.
  induction a as [|c a IH]; intros Ha cur.
  - cbn [app PyStr.split_from]. rewrite bool_decide_true by done.
    by rewrite app_nil_r.
  - apply not_elem_of_cons in Ha as [Hc Ha].
    cbn [app PyStr.split_from]. rewrite bool_decide_false by done.
    rewrite (IH Ha). by rewrite reverse_cons, <- app_assoc.
Qed.

Lemma split_from_whole (sep : N) (a : str) :
  sep ∉ a → ∀ cur, PyStr.split_from sep cur a = [reverse cur ++ a].
Proof.
  induction a as [|c a IH]; intros Ha cur.
  - by rewrite app_nil_r.
  - apply not_elem_of_cons in Ha as [Hc Ha].
    cbn [PyStr.split_from]. rewrite bool_decide_false by done.
    rewrite (IH Ha). by rewrite reverse_cons, <- app_assoc.
Qed.

Lemma split_sep (sep : N) (a b : str) :
  sep ∉ a → PyStr.split sep (a ++ sep :: b) = a :: PyStr.split sep b.
Proof. intros Ha. unfold PyStr.split. by rewrite split_from_sep. Qed.

Lemma split_whole (sep : N) (a : str) : sep ∉ a → PyStr.split sep a = [a].
Proof. intros Ha. unfold PyStr.split. by rewrite split_from_whole. Qed.

(** Either the text has no separator and is its own single piece, or it
    is a first piece, the separator and the rest. *)
Lemma split_cases (sep : N) (s : str) :
  ((sep ∉ s) ∧ PyStr.split sep s = [s]) ∨
  (∃ a b, s = a ++ sep :: b ∧ (sep ∉ a) ∧
          PyStr.split sep s = a :: PyStr.split sep b).
Proof.
  destruct (decide (sep ∈ s)) as [Hin|Hnot].
  - right. apply list_elem_of_split_l in Hin as (a & b & -> & Ha).
    exists a, b. split; [done|]. split; [done|]. by apply split_sep.
  - left. split; [done|]. by apply split_whole.
Qed.

(** No piece holds the separator. *)
Lemma split_pieces (sep : N) (s : str) :
  Forall (λ piece, sep ∉ piece) (PyStr.split sep s).
Proof.
  induction s as [s IH] using (induction_ltof1 _ (@length N)).
  unfold ltof in IH.
  destruct (split_cases sep s) as [[Hs ->]|(a & b & -> & Ha & ->)].
  - by constructor.
  - constructor; [done|]. apply IH. rewrite length_app. cbn. lia.
Qed.

(** There is one piece more than there are separators. *)
Lemma split_from_length (sep : N) (s : str) :
  ∀ cur, length (PyStr.split_from sep cur s) = S (count_char sep s).
Proof.
  unfold count_char.
  induction s as [|c s IH]; intros cur; [done|].
  cbn [PyStr.split_from]. destruct (decide (c = sep)) as [->|Hc].
  - rewrite bool_decide_true by done. rewrite filter_cons_True by done.
    cbn [length]. by rewrite IH.
  - rewrite bool_decide_false by done. rewrite filter_cons_False by done.
    apply IH.
Qed.

Lemma split_length (sep : N) (s : str) :
  length (PyStr.split sep s) = S (count_char sep s).
Proof. apply split_from_length. Qed.

(** The last piece is what follows the last separator. *)
Lemma split_last (sep : N) (d b : str) :
  sep ∉ b → last (PyStr.split sep (d ++ sep :: b)) = Some b.
Proof.
  intros Hb.
  induction d as [d IH] using (induction_ltof1 _ (@length N)).
  unfold ltof in IH.
  destruct (split_cases sep d) as [[Hd _]|(a & d' & -> & Ha & _)].
  - rewrite split_sep by done. by rewrite split_whole.
  - rewrite <- app_assoc. cbn [app]. rewrite split_sep by done.
    rewrite last_cons. rewrite IH; [done|]. rewrite length_app. cbn. lia.
Qed.

(** ** [get_trade_info]: where the id and the title come from *)

(** What [get_trade_info] does with the response, for any site. *)
Lemma get_trade_info_run (self : SteamTrades) (trade_id : str) (srv : site)
    (sent : list request) :
  let request :=
    Request GET (server self ++ lit "/trade/" ++ trade_id ++ lit "/")
      (headers self) None in
  let path := url_path (srv sent request) in
  run srv sent (get_trade_info self trade_id) =
  (sent ++ [request],
   match PyStr.split 47 path !! 2%nat with
   | Some id_ =>
       Returned (mkTradeInfo id_
                   (take 22 (PyStr.replace 45 32 (PyStr.basename path))
                    ++ lit "...")
                   (resp_text (srv sent request)))
   | None => Raised IndexError
   end).
Proof.
  intros request path.
  unfold get_trade_info, http_get. rewrite bind_Await. cbn [run].
  rewrite bind_Ret. fold request path. unfold list_item.
  destruct (PyStr.split 47 path !! 2%nat) as [id_|]; reflexivity.
Qed.

(** The third piece of a text cut at a separator lies between its second
    and its third occurrence, or after the second when there is no
    third. *)
Lemma split_third (sep : N) (s piece : str) :
  PyStr.split sep s !! 2%nat = Some piece ↔
  ∃ p0 p1 rest,
    s = p0 ++ sep :: p1 ++ sep :: piece ++ rest ∧
    (sep ∉ p0) ∧ (sep ∉ p1) ∧ (sep ∉ piece) ∧
    (rest = [] ∨ ∃ rest', rest = sep :: rest').
Proof.
  split.
  - destruct (split_cases sep s) as [[_ ->]|(p0 & s1 & -> & Hp0 & ->)]; [done|].
    destruct (split_cases sep s1) as [[_ ->]|(p1 & s2 & -> & Hp1 & ->)]; [done|].
    destruct (split_cases sep s2) as [[Hs2 ->]|(p2 & s3 & -> & Hp2 & ->)].
    + intros [= <-]. exists p0, p1, []. rewrite app_nil_r.
      split; [done|]. split; [done|]. split; [done|]. split; [done|]. by left.
    + intros [= <-]. exists p0, p1, (sep :: s3).
      split; [done|]. split; [done|]. split; [done|]. split; [done|].
      right. by exists s3.
  - intros (p0 & p1 & rest & -> & Hp0 & Hp1 & Hpiece & Hrest).
    rewrite split_sep by done. rewrite split_sep by done.
    destruct Hrest as [->|(rest' & ->)].
    + rewrite app_nil_r. by rewrite split_whole.
    + by rewrite split_sep.
Qed.

(** X1. The id of the [TradeInfo] that [get_trade_info] returns is the
    text between the second and the third slash of the path of the
    response URL (up to the end of the path when there is no third slash);
    it holds no slash itself. *)
Theorem get_trade_info_id_between_slashes (self : SteamTrades) (trade_id : str)
    (srv : site) (sent : list request) (trade_info : TradeInfo) :
  let request :=
    Request GET (server self ++ lit "/trade/" ++ trade_id ++ lit "/")
      (headers self) None in
  (run srv sent (get_trade_info self trade_id)).2 = Returned trade_info →
  ∃ p0 p1 rest,
    url_path (srv sent request) =
      p0 ++ 47%N :: p1 ++ 47%N :: id trade_info ++ rest ∧
    (47%N ∉ p0) ∧ (47%N ∉ p1) ∧ (47%N ∉ id trade_info) ∧
    (rest = [] ∨ ∃ rest', rest = 47%N :: rest').
Proof.
  intros request. rewrite get_trade_info_run. cbv zeta. cbn [snd].
  fold request.
  destruct (PyStr.split 47 (url_path (srv sent request)) !! 2%nat)
    as [id_|] eqn:Hid; [|done].
  intros [= <-]. cbn [id]. by apply split_third.
Qed.

Lemma get_trade_info_id_between_slashes_sample :
  ∃ p0 p1 rest,
    lit "/trade/123/some-long-trade-title-here" =
      p0 ++ 47%N :: p1 ++ 47%N :: lit "123" ++ rest ∧
    (47%N ∉ p0) ∧ (47%N ∉ p1) ∧ (47%N ∉ lit "123") ∧
    (rest = [] ∨ ∃ rest', rest = 47%N :: rest').
Proof.
  apply (get_trade_info_id_between_slashes Samples.plugin (lit "SOME-slug")
           (λ _ _, Response (lit "/trade/123/some-long-trade-title-here")
                     (lit "<html>")) []
           (mkTradeInfo (lit "123") (lit "some long trade title ...")
              (lit "<html>"))).
  vm_compute. reflexivity.
Defined.

(** X2. [get_trade_info] raises [IndexError] exactly when the path of
    the response URL has fewer than two slashes, and returns a [TradeInfo]
    otherwise; either way it has made its one request. *)
Theorem get_trade_info_index_error (self : SteamTrades) (trade_id : str)
    (srv : site) (sent : list request) :
  let request :=
    Request GET (server self ++ lit "/trade/" ++ trade_id ++ lit "/")
      (headers self) None in
  let path := url_path (srv sent request) in
  (count_char 47 path < 2 →
   run srv sent (get_trade_info self trade_id) =
   (sent ++ [request], Raised IndexError)) ∧
  (2 ≤ count_char 47 path →
   ∃ trade_info,
     run srv sent (get_trade_info self trade_id) =
     (sent ++ [request], Returned trade_info)).
Proof.
  intros request path. rewrite get_trade_info_run. cbv zeta.
  fold request path.
  pose proof (split_length 47 path) as Hlength.
  destruct (PyStr.split 47 path !! 2%nat) as [id_|] eqn:Hid.
  - apply lookup_lt_Some in Hid. split; [lia|]. intros _. by eexists.
  - apply lookup_ge_None in Hid. split; [done|]. lia.
Qed.

Lemma get_trade_info_index_error_sample :
  run (λ _ _, Response (lit "/") (lit "<html>")) []
    (get_trade_info Samples.plugin (lit "123")) =
  ([Request GET (lit "https://www.steamtrades.com/trade/123/") ∅ None],
   Raised IndexError) ∧
  ∃ trade_info,
    run (λ _ _, Response (lit "/trade/123/") (lit "<html>")) []
      (get_trade_info Samples.plugin (lit "123")) =
    ([Request GET (lit "https://www.steamtrades.com/trade/123/") ∅ None],
     Returned trade_info).
Proof.
  split.
  - refine (proj1 (get_trade_info_index_error Samples.plugin (lit "123")
                     (λ _ _, Response (lit "/") (lit "<html>")) []) _).
    vm_compute. lia.
  - refine (proj2 (get_trade_info_index_error Samples.plugin (lit "123")
                     (λ _ _, Response (lit "/trade/123/") (lit "<html>")) []) _).
    vm_compute. lia.
Defined.

(** What follows the last slash holds no slash. *)
Lemma basename_no_slash (p : str) : 47%N ∉ PyStr.basename p.
Proof.
  unfold PyStr.basename.
  pose proof (split_pieces 47 p) as Hpieces.
  destruct (last (PyStr.split 47 p)) as [piece|] eqn:Hlast; cbn.
  - apply last_Some in Hlast as (front & Hfront). rewrite Hfront in Hpieces.
    apply Forall_app in Hpieces as [_ Hpiece]. by inversion Hpiece.
  - apply not_elem_of_nil.
Qed.

Lemma basename_after_slash (d b : str) :
  47%N ∉ b → PyStr.basename (d ++ 47%N :: b) = b.
Proof. intros Hb. unfold PyStr.basename. by rewrite split_last. Qed.

(** X3. The title of the [TradeInfo] that [get_trade_info] returns has
    at most 25 characters and holds neither a dash nor a slash; when the
    path of the response URL ends with a slash, as the requested URL does,
    the title is the three dots alone. *)
Theorem get_trade_info_title (self : SteamTrades) (trade_id : str)
    (srv : site) (sent : list request) (trade_info : TradeInfo) :
  let request :=
    Request GET (server self ++ lit "/trade/" ++ trade_id ++ lit "/")
      (headers self) None in
  (run srv sent (get_trade_info self trade_id)).2 = Returned trade_info →
  length (title trade_info) ≤ 25 ∧
  (45%N ∉ title trade_info) ∧
  (47%N ∉ title trade_info) ∧
  ((∃ d, url_path (srv sent request) = d ++ [47%N]) →
   title trade_info = lit "...").
Proof.
  intros request. rewrite get_trade_info_run. cbv zeta. cbn [snd].
  fold request.
  destruct (PyStr.split 47 (url_path (srv sent request)) !! 2%nat)
    as [id_|]; [|done].
  intros [= <-]. cbn [title].
  set (base := PyStr.basename (url_path (srv sent request))).
  assert (∀ c, c ∈ lit "..." → c = 46%N) as Hdots.
  { intros c Hc. vm_compute in Hc.
    repeat (apply elem_of_cons in Hc as [->|Hc]; [done|]).
    by apply elem_of_nil in Hc. }
  assert (∀ c, c ∈ take 22 (PyStr.replace 45 32 base) →
               c ≠ 45%N ∧ (c = 47%N → 47%N ∈ base)) as Htake.
  { intros c Hc. apply (subseteq_take 22) in Hc.
    unfold PyStr.replace in Hc. apply list_elem_of_fmap in Hc as (x & -> & Hx).
    case_bool_decide as Hdash; [done|]. split; [done|]. by intros ->. }
  split; [|split; [|split]].
  - rewrite length_app, length_take. change (length (lit "...")) with 3%nat. lia.
  - intros [Hc|Hc]%elem_of_app.
    + by apply Htake in Hc as [Hc _].
    + by apply Hdots in Hc.
  - intros [Hc|Hc]%elem_of_app.
    + apply Htake in Hc as [_ Hc]. by apply (basename_no_slash _ (Hc eq_refl)).
    + by apply Hdots in Hc.
  - intros (d & Hpath). subst base. rewrite Hpath.
    rewrite basename_after_slash by apply not_elem_of_nil. reflexivity.
Qed.

Lemma get_trade_info_title_sample :
  length (lit "...") ≤ 25 ∧ (45%N ∉ lit "...") ∧ (47%N ∉ lit "...") ∧
  ((∃ d, lit "/trade/123/" = d ++ [47%N]) → lit "..." = lit "...").
Proof.
  apply (get_trade_info_title Samples.plugin (lit "123")
           (λ _ _, Response (lit "/trade/123/") (lit "<html>")) []
           (mkTradeInfo (lit "123") (lit "...") (lit "<html>"))).
  vm_compute. reflexivity.
Defined.

(** ** [do_login]: what is sent and what can come out *)

(** X4. [do_login] sends one GET to the login page and, only when that
    page has a form, one POST to [openid_url + '/login'] whose data are
    the fields collected from the form; it sends nothing else, and each
    request carries [self.headers]. *)
Theorem do_login_requests {lib : Builtins} (self : SteamTrades) (srv : site)
    (sent : list request) :
  let request := Request GET (login_page self) (headers self) None in
  let html := BeautifulSoup (resp_text (srv sent request)) in
  ∃ more,
    (run srv sent (do_login self)).1 = sent ++ more ∧
    Forall (λ r, req_headers r = headers self) more ∧
    match Bs4.find (lit "form") None html with
    | None => more = [request]
    | Some form =>
        more = [request;
                Request POST (openid_url self ++ lit "/login") (headers self)
                  (Some (form_fields (Bs4.findAll (lit "input") None form)))]
    end.
Proof.
  intros request html.
  destruct (Bs4.find (lit "form") None html) as [form|] eqn:Hform.
  - rewrite (do_login_run_form self srv sent form Hform). cbv zeta.
    eexists. split; [reflexivity|]. split; [|reflexivity].
    by repeat constructor.
  - rewrite (do_login_run_blocked self srv sent Hform). cbv zeta.
    eexists. split; [reflexivity|]. split; [|reflexivity].
    by repeat constructor.
Qed.

(** The last of the values a function picks from a list comes from an
    element of the list, and something is picked when an element gives
    something. *)
Lemma last_omap_Some {A B : Type} (f : A → option B) (l : list A) (y : B) :
  last (omap f l) = Some y → ∃ x, x ∈ l ∧ f x = Some y.
Proof.
  intros Hlast. apply last_Some_elem_of in Hlast.
  apply list_elem_of_omap in Hlast as (x & Hx & Hfx). by exists x.
Qed.

Lemma last_omap_is_Some {A B : Type} (f : A → option B) (l : list A) (x : A) :
  x ∈ l → is_Some (f x) → is_Some (last (omap f l)).
Proof.
  intros Hx [y Hy].
  assert (y ∈ omap f l) as Hin by (apply list_elem_of_omap; by exists x).
  destruct (omap f l) as [|z l'] using rev_ind.
  - by apply elem_of_nil in Hin.
  - rewrite last_snoc. by eexists.
Qed.

(** X5. The loop over the inputs of the login form never raises. The
    dict it builds holds a value under a name only if an input of the
    form has that name and that value, and every input that has a name
    and a value has its name in the dict; inputs that lack one of the two
    leave no trace. *)
Theorem login_fields_collected (inputs : list Bs4.node) :
  ∃ data : gmap str str,
    for_each inputs login_input ∅ = Ret data ∧
    (∀ name value,
       data !! name = Some value →
       ∃ input_, input_ ∈ inputs ∧
                 Bs4.getitem input_ (lit "name") = Some name ∧
                 Bs4.getitem input_ (lit "value") = Some value) ∧
    (∀ input_ name,
       input_ ∈ inputs →
       Bs4.getitem input_ (lit "name") = Some name →
       is_Some (Bs4.getitem input_ (lit "value")) →
       is_Some (data !! name)).
Proof.
  exists (form_fields inputs). split; [|split].
  - by rewrite for_each_login_input.
  - intros name value. rewrite form_fields_lookup. unfold field_value.
    intros (input_ & Hin & Hpick)%last_omap_Some. exists input_.
    destruct (Bs4.getitem input_ (lit "name")) as [name'|]; [|done].
    destruct (Bs4.getitem input_ (lit "value")) as [value'|]; [|done].
    case_bool_decide; by simplify_eq.
  - intros input_ name Hin Hname [value Hvalue].
    rewrite form_fields_lookup. unfold field_value.
    apply (last_omap_is_Some _ _ input_); [done|].
    rewrite Hname, Hvalue. by rewrite bool_decide_true.
Qed.

Lemma login_fields_collected_sample :
  let inputs :=
    [Samples.hidden_input "openid.mode" "checkid_setup";
     Samples.hidden_input "nonce" "first";
     Samples.hidden_input "nonce" "second";
     Bs4.Tag (lit "input") [] {[ lit "type" := lit "submit" ]} []] in
  ∃ data : gmap str str,
    for_each inputs login_input ∅ = Ret data ∧
    (∀ name value,
       data !! name = Some value →
       ∃ input_, input_ ∈ inputs ∧
                 Bs4.getitem input_ (lit "name") = Some name ∧
                 Bs4.getitem input_ (lit "value") = Some value) ∧
    (∀ input_ name,
       input_ ∈ inputs →
       Bs4.getitem input_ (lit "name") = Some name →
       is_Some (Bs4.getitem input_ (lit "value")) →
       is_Some (data !! name)).
Proof.
  intros inputs. exact (login_fields_collected inputs).
Defined.

(** X6. What [do_login] can raise, and what each outcome tells about the
    requests made: it raises only [LoginError] or one of its subclasses,
    or the [KeyError] of a missing [href], or [IndexError]. [TooFast] is
    raised only with the GET alone sent, so the form was not posted;
    [UserLevelError], the two lookup errors and a returned payload occur
    only after the POST. *)
Theorem do_login_outcomes {lib : Builtins} (self : SteamTrades) (srv : site)
    (sent : list request) :
  match run srv sent (do_login self) with
  | (trace, Returned _) => length trace = (length sent + 2)%nat
  | (trace, Raised e) =>
      (is_login_error e = true ∨ e = KeyError (SubStr (lit "href")) ∨
       e = IndexError) ∧
      (∀ message, e = TooFast message → length trace = (length sent + 1)%nat) ∧
      (∀ message, e = UserLevelError message →
                  length trace = (length sent + 2)%nat) ∧
      (is_login_error e = false → length trace = (length sent + 2)%nat)
  end.
Proof.
  destruct (Bs4.find (lit "form") None
              (BeautifulSoup
                 (resp_text (srv sent (Request GET (login_page self)
                                         (headers self) None)))))
    as [form|] eqn:Hform.
  - rewrite (do_login_run_form self srv sent form Hform). cbv zeta.
    destruct (Bs4.find (lit "a") (Some (lit "nav_avatar")) _) as [link|].
    + destruct (mentions _ _).
      { rewrite length_app. cbn. repeat split; (done || by left). }
      destruct (Bs4.getitem link (lit "href")) as [href|].
      * destruct (PyStr.split 47 href !! 2%nat).
        -- rewrite length_app. cbn. lia.
        -- rewrite length_app. cbn. repeat split; try done; auto.
      * rewrite length_app. cbn. repeat split; try done; auto.
    + repeat case_match; rewrite length_app; cbn;
        repeat split; (done || by left).
  - rewrite (do_login_run_blocked self srv sent Hform). cbv zeta.
    repeat case_match; rewrite length_app; cbn;
      repeat split; (done || by left).
Qed.

Lemma do_login_outcomes_sample :
  match run (Samples.serving [(Samples.login_get, Samples.too_fast_html)]) []
          (do_login (lib := Samples.python) Samples.plugin) with
  | (trace, Returned _) => length trace = (length (@nil request) + 2)%nat
  | (trace, Raised e) =>
      (is_login_error e = true ∨ e = KeyError (SubStr (lit "href")) ∨
       e = IndexError) ∧
      (∀ message, e = TooFast message →
                  length trace = (length (@nil request) + 1)%nat) ∧
      (∀ message, e = UserLevelError message →
                  length trace = (length (@nil request) + 2)%nat) ∧
      (is_login_error e = false →
       length trace = (length (@nil request) + 2)%nat)
  end.
Proof.
  exact (do_login_outcomes (lib := Samples.python) Samples.plugin
           (Samples.serving [(Samples.login_get, Samples.too_fast_html)]) []).
Defined.

(** X7. After the POST, with an avatar link that has an [href] and no
    suspension badge, [do_login] raises [IndexError] exactly when the
    [href] has fewer than two slashes (a relative address such as
    [user/7656...] has one); otherwise it returns, and the steamid it read
    holds no slash. *)
Theorem do_login_steamid {lib : Builtins} (self : SteamTrades) (srv : site)
    (sent : list request) (form link : Bs4.node) (href : str) :
  let request := Request GET (login_page self) (headers self) None in
  let data := form_fields (Bs4.findAll (lit "input") None form) in
  let submit :=
    Request POST (openid_url self ++ lit "/login") (headers self) (Some data) in
  let html := BeautifulSoup (resp_text (srv (sent ++ [request]) submit)) in
  Bs4.find (lit "form") None (BeautifulSoup (resp_text (srv sent request)))
    = Some form →
  Bs4.find (lit "a") (Some (lit "nav_avatar")) html = Some link →
  ¬ shows (Bs4.find (lit "a") (Some (lit "nav__button")) html)
      (lit "Suspensions") →
  Bs4.getitem link (lit "href") = Some href →
  (count_char 47 href < 2 →
   run srv sent (do_login self) = (sent ++ [request; submit], Raised IndexError)) ∧
  (2 ≤ count_char 47 href →
   ∃ steamid,
     PyStr.split 47 href !! 2%nat = Some steamid ∧
     (47%N ∉ steamid) ∧
     run srv sent (do_login self) =
     (sent ++ [request; submit],
      Returned (update (<[lit "steamid" := PyStr steamid]>
                          {[ lit "success" := PyBool true ]}) data))).
Proof.
  intros request data submit html Hform Hlink Hbadge%mentions_not_shows Hhref.
  rewrite (do_login_run_form self srv sent form Hform). cbv zeta.
  fold request data submit html. rewrite Hlink, Hbadge, Hhref.
  pose proof (split_length 47 href) as Hlength.
  pose proof (split_pieces 47 href) as Hpieces.
  destruct (PyStr.split 47 href !! 2%nat) as [steamid|] eqn:Hsteamid.
  - pose proof (lookup_lt_Some _ _ _ Hsteamid). split; [lia|].
    intros _. exists steamid. split; [done|]. split; [|done].
    by apply (Forall_lookup_1 _ _ _ _ Hpieces Hsteamid).
  - apply lookup_ge_None in Hsteamid. split; [done|]. lia.
Qed.

Lemma do_login_steamid_sample :
  run (Samples.serving [(Samples.login_get, Samples.login_form_html);
                        (Samples.login_post, MoreSamples.relative_avatar_html)])
    [] (do_login (lib := MoreSamples.python) Samples.plugin) =
  ([Request GET (lit "https://steamtrades.com/?login") ∅ None;
    Request POST (lit "https://steamcommunity.com/openid/login") ∅
      (Some {[ lit "openid.mode" := lit "checkid_setup";
               lit "nonce" := lit "second" ]})],
   Raised IndexError).
Proof.
  assert (Bs4.find (lit "form") None Samples.login_form_tree
          = Some (Bs4.Tag (lit "form") []
                    (list_to_map
                       [(lit "action", lit "https://steamcommunity.com/openid/login");
                        (lit "method", lit "post")])
                    [Samples.hidden_input "openid.mode" "checkid_setup";
                     Samples.hidden_input "nonce" "first";
                     Samples.hidden_input "nonce" "second";
                     Bs4.Tag (lit "input") [] {[ lit "type" := lit "submit" ]} []]))
    as Hform by (vm_compute; reflexivity).
  refine (eq_trans (proj1 (do_login_steamid (lib := MoreSamples.python)
            Samples.plugin
            (Samples.serving [(Samples.login_get, Samples.login_form_html);
                              (Samples.login_post, MoreSamples.relative_avatar_html)])
            [] _
            (Bs4.Tag (lit "a") [lit "nav_avatar"]
               {[ lit "href" := lit "user/76561198000000001" ]} [])
            (lit "user/76561198000000001") Hform _ _ _) _) _).
  - vm_compute. reflexivity.
  - apply mentions_not_shows. vm_compute. reflexivity.
  - vm_compute. reflexivity.
  - vm_compute. lia.
  - vm_compute. reflexivity.
Defined.

(** ** [bump]: every way it can go *)

(** The loop of [bump] stops at the first input that lacks its value or
    its name, with the [KeyError] of the first lookup that fails, the
    value being looked up first. *)
Lemma for_each_bump_input_first
    (before after : list Bs4.node) (input_ : Bs4.node) :
  Forall complete_input before →
  ¬ complete_input input_ →
  ∀ data,
    for_each (before ++ input_ :: after) bump_input data =
    Raise (KeyError (SubStr (match Bs4.getitem input_ (lit "value") with
                             | None => lit "value"
                             | Some _ => lit "name"
                             end))).
Proof.
  intros Hbefore Hnot.
  induction Hbefore as [|first before [[name Hname] [value Hvalue]] _ IH];
    intros data.
  - cbn [app for_each]. unfold bump_input, tag_item.
    destruct (Bs4.getitem input_ (lit "value")) as [value|] eqn:Hvalue;
      [|reflexivity].
    rewrite bind_Ret.
    destruct (Bs4.getitem input_ (lit "name")) as [name|] eqn:Hname;
      [|reflexivity].
    destruct Hnot. split; by eexists.
  - cbn [app for_each]. unfold bump_input, tag_item.
    rewrite Hname, Hvalue, !bind_Ret. apply IH.
Qed.

(** A list with an element that fails a test has a first such element. *)
Lemma first_failing {A : Type} (P : A → Prop) `{∀ x, Decision (P x)}
    (l : list A) :
  ¬ Forall P l →
  ∃ before x after, l = before ++ x :: after ∧ Forall P before ∧ ¬ P x.
Proof.
  induction l as [|y l IH]; intros Hnot.
  - destruct Hnot. constructor.
  - destruct (decide (P y)) as [Hy|Hy].
    + destruct IH as (before & x & after & -> & Hbefore & Hx).
      { intros Hall. apply Hnot. by constructor. }
      exists (y :: before), x, after. split; [done|]. split; [|done].
      by constructor.
    + exists [], y, l. split; [done|]. split; [constructor|done].
Qed.

(** [bump] either stops before any request, with one of four kinds of
    failure, or has collected both tokens. *)
Lemma bump_cases {lib : Builtins} (self : SteamTrades) (trade_info : TradeInfo) :
  (∃ e,
     bump self trade_info = Raise e ∧
     (e = LoginError (lit "User is not logged in") ∨
      e = TradeClosedError (id trade_info) (title trade_info)
            (lit "Trade " ++ id trade_info ++ lit " is closed") ∨
      e = NoTradesError (lit "No trades available to bump") ∨
      ∃ key, e = KeyError (SubStr key) ∧
             key ∈ [lit "value"; lit "name"; lit "code"; lit "xsrf_token"])) ∨
  (∃ (data : gmap str str) (code xsrf_token : str),
     bump_collects trade_info data ∧
     data !! lit "code" = Some code ∧
     data !! lit "xsrf_token" = Some xsrf_token).
Proof.
  destruct (Bs4.find (lit "a") (Some (lit "nav_avatar"))
              (BeautifulSoup (html trade_info))) as [avatar|] eqn:Havatar.
  2: { left. eexists. split; [unfold bump; by rewrite Havatar|]. by left. }
  destruct (Bs4.find (lit "div") (Some (lit "js_trade_open"))
              (BeautifulSoup (html trade_info))) as [marker|] eqn:Hmarker.
  { left. eexists. split; [unfold bump; by rewrite Havatar, Hmarker|].
    right. by left. }
  destruct (Bs4.find (lit "form") None (BeautifulSoup (html trade_info)))
    as [form|] eqn:Hform.
  2: { left. eexists.
       split; [unfold bump; by rewrite Havatar, Hmarker, Hform|].
       right. right. by left. }
  destruct (decide (Forall complete_input (Bs4.findAll (lit "input") None form)))
    as [Hall|Hnot].
  - assert (bump_collects trade_info
              (form_fields (Bs4.findAll (lit "input") None form)))
      as Hcollects.
    { split; [by eexists|]. split; [done|]. by exists form. }
    set (data := form_fields (Bs4.findAll (lit "input") None form)) in *.
    destruct (data !! lit "code") as [code|] eqn:Hcode.
    + destruct (data !! lit "xsrf_token") as [xsrf_token|] eqn:Hxsrf.
      * right. by exists data, code, xsrf_token.
      * left. eexists. split.
        { apply (bump_without_xsrf_token self trade_info data); by rewrite ?Hcode. }
        do 3 right. eexists. split; [done|]. set_solver.
    + left. eexists. split.
      { by apply (bump_without_code self trade_info data). }
      do 3 right. eexists. split; [done|]. set_solver.
  - left.
    apply first_failing in Hnot
      as (before & input_ & after & Hinputs & Hbefore & Hinput); [|apply _].
    eexists. split.
    { unfold bump. rewrite Havatar, Hmarker, Hform.
      cbn [findAll_inputs]. rewrite bind_Ret, Hinputs.
      rewrite (for_each_bump_input_first _ _ _ Hbefore Hinput).
      reflexivity. }
    do 3 right. eexists. split; [done|].
    destruct (Bs4.getitem input_ (lit "value")); set_solver.
Qed.

(** The requests [bump] makes and its outcome go together in one of
    three ways. *)
Lemma bump_run_shape {lib : Builtins} (self : SteamTrades)
    (trade_info : TradeInfo) (srv : site) (sent : list request) :
  let listing :=
    Request POST (server self ++ lit "/trades") (headers self) None in
  (∃ e, run srv sent (bump self trade_info) = (sent, Raised e) ∧
        (classified e = true ∨ ∃ key, e = KeyError (SubStr key)) ∧
        ∀ id title minutes message,
          e ≠ TradeNotReadyError id title minutes message) ∨
  (∃ code xsrf_token e,
     run srv sent (bump self trade_info) =
       (sent ++ [bump_request self code xsrf_token], Raised e) ∧
     ((∃ minutes,
         e = TradeNotReadyError (id trade_info) (title trade_info) minutes
               (lit "Trade " ++ id trade_info ++ lit " is not ready")) ∨
      classified e = false)) ∨
  (∃ code xsrf_token b,
     run srv sent (bump self trade_info) =
       (sent ++ [bump_request self code xsrf_token; listing], Returned b)).
Proof.
  intros listing.
  destruct (bump_cases self trade_info)
    as [(e & Hbump & He)|(data & code & xsrf_token & Hcollects & Hcode & Hxsrf)].
  - left. exists e. rewrite Hbump. split; [done|].
    destruct He as [->|[->|[->|(key & -> & _)]]];
      (split; [by (left + (right; eexists))|done]).
  - right.
    rewrite (bump_run self trade_info data code xsrf_token srv sent) by done.
    cbv zeta. fold listing.
    destruct (PyStr.contains (lit "Please wait another") _).
    + left. destruct (read_cooldown _) as [minutes|e] eqn:Hread.
      * eexists code, xsrf_token, _. split; [reflexivity|]. left. by eexists.
      * exists code, xsrf_token, e. split; [reflexivity|]. right.
        apply read_cooldown_raises in Hread.
        repeat (apply elem_of_cons in Hread as [->|Hread]; [done|]).
        by apply elem_of_nil in Hread.
    + right. by eexists code, xsrf_token, _.
Qed.

(** X8. Unlike the login form, the form of a trade page must have a name
    and a value on every input: at the first input that lacks one, [bump]
    raises [KeyError] - for [value] when the value is missing, else for
    [name] - and makes no request, even when that input is a mere button
    and both tokens are present. *)
Theorem bump_incomplete_input_key {lib : Builtins} (self : SteamTrades)
    (trade_info : TradeInfo) (form input_ : Bs4.node)
    (before after : list Bs4.node) :
  let soup := BeautifulSoup (html trade_info) in
  has_element (lit "a") (Some (lit "nav_avatar")) soup →
  ¬ has_element (lit "div") (Some (lit "js_trade_open")) soup →
  Bs4.find (lit "form") None soup = Some form →
  Bs4.findAll (lit "input") None form = before ++ input_ :: after →
  Forall complete_input before →
  ¬ complete_input input_ →
  ∀ (srv : site) (sent : list request),
    run srv sent (bump self trade_info) =
    (sent,
     Raised (KeyError (SubStr (match Bs4.getitem input_ (lit "value") with
                               | None => lit "value"
                               | Some _ => lit "name"
                               end)))).
Proof.
  intros soup [avatar Havatar]%find_is_Some Hmarker%find_None Hform Hinputs
    Hbefore Hinput srv sent.
  subst soup. unfold bump. rewrite Havatar, Hmarker, Hform.
  cbn [findAll_inputs]. rewrite bind_Ret, Hinputs.
  by rewrite (for_each_bump_input_first _ _ _ Hbefore Hinput).
Qed.

Lemma bump_incomplete_input_key_sample :
  run (Samples.serving []) []
    (bump (lib := MoreSamples.python) Samples.plugin
       (mkTradeInfo (lit "123") (lit "some long trade title ...")
          MoreSamples.decorated_trade_html)) =
  ([], Raised (KeyError (SubStr (lit "value")))).
Proof.
  refine (bump_incomplete_input_key (lib := MoreSamples.python) Samples.plugin
            (mkTradeInfo (lit "123") (lit "some long trade title ...")
               MoreSamples.decorated_trade_html)
            (Bs4.Tag (lit "form") [] ∅
               [Samples.hidden_input "xsrf_token" "abc123";
                Bs4.Tag (lit "input") [] {[ lit "type" := lit "submit" ]} [];
                Samples.hidden_input "code" "k9XyZ"])
            (Bs4.Tag (lit "input") [] {[ lit "type" := lit "submit" ]} [])
            [Samples.hidden_input "xsrf_token" "abc123"]
            [Samples.hidden_input "code" "k9XyZ"] _ _ _ _ _ _
            (Samples.serving []) []).
  - apply find_is_Some. vm_compute. eexists. reflexivity.
  - apply find_None. vm_compute. reflexivity.
  - vm_compute. reflexivity.
  - vm_compute. reflexivity.
  - vm_compute. repeat constructor; eexists; reflexivity.
  - vm_compute. intros [[name Hname] _]. discriminate Hname.
Defined.

(** X9. Whatever the stored page and the site, [bump] makes at most two
    requests, both POSTs carrying [self.headers]: first the tokens to the
    bump script, then the look at the listing. A returned value means both
    were made; [TradeNotReadyError] means the tokens were sent and the
    listing was not fetched; any other classified failure ([LoginError],
    [TradeClosedError], [NoTradesError]) means nothing was sent. *)
Theorem bump_requests {lib : Builtins} (self : SteamTrades)
    (trade_info : TradeInfo) (srv : site) (sent : list request) :
  let listing :=
    Request POST (server self ++ lit "/trades") (headers self) None in
  ∃ more,
    (run srv sent (bump self trade_info)).1 = sent ++ more ∧
    Forall (λ r, req_method r = POST ∧ req_headers r = headers self) more ∧
    (more = [] ∨
     ∃ code xsrf_token,
       more = [bump_request self code xsrf_token] ∨
       more = [bump_request self code xsrf_token; listing]) ∧
    match (run srv sent (bump self trade_info)).2 with
    | Returned _ => length more = 2%nat
    | Raised (TradeNotReadyError _ _ _ _) => length more = 1%nat
    | Raised e => classified e = true → more = []
    end.
Proof.
  intros listing.
  destruct (bump_run_shape self trade_info srv sent)
    as [(e & -> & He & Hready)
       |[(code & xsrf_token & e & -> & He)|(code & xsrf_token & b & ->)]].
  - exists []. rewrite app_nil_r. split; [done|]. split; [constructor|].
    split; [by left|]. cbn [snd].
    destruct e; try done. by destruct (Hready id0 title0 time_left message).
  - exists [bump_request self code xsrf_token]. split; [done|].
    split; [by repeat constructor|]. split; [right; eexists _, _; by left|].
    cbn [snd]. destruct He as [(minutes & ->)|He]; [done|].
    destruct e; try done; cbn in He; congruence.
  - exists [bump_request self code xsrf_token; listing]. split; [done|].
    split; [by repeat constructor|]. split; [|done].
    right. eexists _, _. by right.
Qed.

Lemma bump_requests_sample :
  let srv := Samples.serving [(Samples.bump_post, Samples.cooldown_body)] in
  let listing :=
    Request POST (lit "https://www.steamtrades.com" ++ lit "/trades") ∅ None in
  ∃ more,
    (run srv [] (bump (lib := Samples.python) Samples.plugin Samples.trade)).1
      = [] ++ more ∧
    Forall (λ r, req_method r = POST ∧ req_headers r = ∅) more ∧
    (more = [] ∨
     ∃ code xsrf_token,
       more = [bump_request Samples.plugin code xsrf_token] ∨
       more = [bump_request Samples.plugin code xsrf_token; listing]) ∧
    match (run srv [] (bump (lib := Samples.python) Samples.plugin
                         Samples.trade)).2 with
    | Returned _ => length more = 2%nat
    | Raised (TradeNotReadyError _ _ _ _) => length more = 1%nat
    | Raised e => classified e = true → more = []
    end.
Proof.
  intros srv.
  exact (bump_requests (lib := Samples.python) Samples.plugin Samples.trade
           srv []).
Defined.

(** X10. Of the fields of the form, [bump] forwards the two tokens and
    nothing else: the data of its first request are [code], [xsrf_token]
    and [do] with the value [trade_bump], which a form field called [do]
    does not replace. *)
Theorem bump_forwards_tokens_only {lib : Builtins} (self : SteamTrades)
    (trade_info : TradeInfo) (data : gmap str str) (code xsrf_token : str)
    (srv : site) (sent : list request) :
  bump_collects trade_info data →
  data !! lit "code" = Some code →
  data !! lit "xsrf_token" = Some xsrf_token →
  ∃ (payload : gmap str str) (rest : list request),
    (run srv sent (bump self trade_info)).1 =
      sent ++ Request POST (server self ++ lit "/" ++ bump_script self)
                (headers self) (Some payload) :: rest ∧
    payload !! lit "do" = Some (lit "trade_bump") ∧
    payload !! lit "code" = Some code ∧
    payload !! lit "xsrf_token" = Some xsrf_token ∧
    ∀ k, k ∉ [lit "do"; lit "code"; lit "xsrf_token"] → payload !! k = None.
Proof.
  intros Hcollects Hcode Hxsrf.
  rewrite (bump_run self trade_info data code xsrf_token srv sent) by done.
  cbv zeta.
  assert (lit "do" ≠ lit "code") as Hdc by (by vm_compute).
  assert (lit "do" ≠ lit "xsrf_token") as Hdx by (by vm_compute).
  assert (lit "xsrf_token" ≠ lit "code") as Hxc by (by vm_compute).
  exists (<[lit "do" := lit "trade_bump"]>
            (<[lit "xsrf_token" := xsrf_token]> {[ lit "code" := code ]})).
  exists (if PyStr.contains (lit "Please wait another")
               (resp_text (srv sent (bump_request self code xsrf_token)))
          then []
          else [Request POST (server self ++ lit "/trades") (headers self) None]).
  split; [|split; [|split; [|split]]].
  - by destruct (PyStr.contains (lit "Please wait another") _).
  - by rewrite lookup_insert_eq.
  - rewrite lookup_insert_ne by done. rewrite lookup_insert_ne by done.
    by rewrite lookup_singleton_eq.
  - rewrite lookup_insert_ne by done. by rewrite lookup_insert_eq.
  - intros k Hk.
    apply not_elem_of_cons in Hk as [Hk1 Hk].
    apply not_elem_of_cons in Hk as [Hk2 Hk].
    apply not_elem_of_cons in Hk as [Hk3 _].
    rewrite lookup_insert_ne by done. rewrite lookup_insert_ne by done.
    by rewrite lookup_singleton_ne.
Qed.

Lemma bump_forwards_tokens_only_sample :
  ∃ (payload : gmap str str) (rest : list request),
    (run (Samples.serving [(Samples.bump_post, lit "ok");
                           (Samples.listing_post, Samples.listing_html)]) []
       (bump (lib := MoreSamples.python) Samples.plugin
          (mkTradeInfo (lit "123") (lit "some long trade title ...")
             MoreSamples.crowded_trade_html))).1 =
      [] ++ Request POST (lit "https://www.steamtrades.com" ++ lit "/"
                          ++ lit "ajax.php") ∅ (Some payload) :: rest ∧
    payload !! lit "do" = Some (lit "trade_bump") ∧
    payload !! lit "code" = Some (lit "k9XyZ") ∧
    payload !! lit "xsrf_token" = Some (lit "abc123") ∧
    ∀ k, k ∉ [lit "do"; lit "code"; lit "xsrf_token"] → payload !! k = None.
Proof.
  refine (bump_forwards_tokens_only (lib := MoreSamples.python) Samples.plugin
            (mkTradeInfo (lit "123") (lit "some long trade title ...")
               MoreSamples.crowded_trade_html)
            {[ lit "xsrf_token" := lit "abc123"; lit "do" := lit "trade_delete";
               lit "code" := lit "k9XyZ"; lit "page" := lit "2" ]}
            (lit "k9XyZ") (lit "abc123")
            (Samples.serving [(Samples.bump_post, lit "ok");
                              (Samples.listing_post, Samples.listing_html)])
            [] _ _ _).
  - split; [vm_compute; eexists; reflexivity|].
    split; [vm_compute; reflexivity|].
    eexists. split; [vm_compute; reflexivity|].
    split; [|vm_compute; reflexivity].
    vm_compute. repeat constructor; eexists; reflexivity.
  - vm_compute. reflexivity.
  - vm_compute. reflexivity.
Defined.

(** X11. The confirmation [bump] returns is a plain substring test: when
    the body of the bump response lacks the notice, [bump] returns [True]
    exactly when the text of the listing is some text, then the id of the
    trade, then some text - so a longer id that contains it confirms too,
    and an empty id is always confirmed. *)
Theorem bump_confirmation_is_substring {lib : Builtins} (self : SteamTrades)
    (trade_info : TradeInfo) (data : gmap str str) (code xsrf_token : str)
    (srv : site) (sent : list request) :
  bump_collects trade_info data →
  data !! lit "code" = Some code →
  data !! lit "xsrf_token" = Some xsrf_token →
  let request := bump_request self code xsrf_token in
  let listing :=
    Request POST (server self ++ lit "/trades") (headers self) None in
  let text := resp_text (srv (sent ++ [request]) listing) in
  PyStr.contains (lit "Please wait another") (resp_text (srv sent request))
    = false →
  ((run srv sent (bump self trade_info)).2 = Returned true ↔
   ∃ pre post, text = pre ++ id trade_info ++ post) ∧
  (id trade_info = [] → (run srv sent (bump self trade_info)).2 = Returned true).
Proof.
  intros Hcollects Hcode Hxsrf request listing text Hnotice.
  rewrite (bump_run self trade_info data code xsrf_token srv sent) by done.
  cbv zeta. fold request. rewrite Hnotice. fold listing text. cbn [snd].
  split.
  - rewrite <- contains_spec. split; [by intros [= ->]|by intros ->].
  - intros ->. by rewrite contains_empty.
Qed.

Lemma bump_confirmation_is_substring_sample :
  (run (Samples.serving
          [(Samples.bump_post, lit "ok");
           (Samples.listing_post, qlit "<a href='/trade/91234/x'>x</a>")]) []
     (bump (lib := Samples.python) Samples.plugin Samples.trade)).2
  = Returned true.
Proof.
  refine (proj2 (proj1 (bump_confirmation_is_substring (lib := Samples.python)
            Samples.plugin Samples.trade
            {[ lit "xsrf_token" := lit "abc123"; lit "code" := lit "k9XyZ" ]}
            (lit "k9XyZ") (lit "abc123")
            (Samples.serving
               [(Samples.bump_post, lit "ok");
                (Samples.listing_post, qlit "<a href='/trade/91234/x'>x</a>")])
            [] _ _ _ _)) _).
  - split; [vm_compute; eexists; reflexivity|].
    split; [vm_compute; reflexivity|].
    eexists. split; [vm_compute; reflexivity|].
    split; [|vm_compute; reflexivity].
    vm_compute. repeat constructor; eexists; reflexivity.
  - vm_compute. reflexivity.
  - vm_compute. reflexivity.
  - vm_compute. reflexivity.
  - exists (qlit "<a href='/trade/9"), (qlit "4/x'>x</a>").
    vm_compute. reflexivity.
Defined.

(** ** [get_trade_info] and then [bump] *)

(** X12. A lookup followed by a bump of what it returned makes the GET
    of the trade page and then only what [bump] makes on the page that GET
    brought, under the id and title read from its URL: at most two POSTs,
    and no second fetch of the trade page. When the path of the response
    URL has fewer than two slashes the pair stops with [IndexError] after
    the GET. *)
Theorem lookup_then_bump {lib : Builtins} (self : SteamTrades) (trade_id : str)
    (srv : site) (sent : list request) :
  let request :=
    Request GET (server self ++ lit "/trade/" ++ trade_id ++ lit "/")
      (headers self) None in
  let response := srv sent request in
  let title :=
    take 22 (PyStr.replace 45 32 (PyStr.basename (url_path response)))
    ++ lit "..." in
  let both := get_trade_info self trade_id ≫= bump self in
  match PyStr.split 47 (url_path response) !! 2%nat with
  | None => run srv sent both = (sent ++ [request], Raised IndexError)
  | Some id_ =>
      run srv sent both =
      run srv (sent ++ [request])
        (bump self (mkTradeInfo id_ title (resp_text response)))
  end ∧
  ∃ more,
    (run srv sent both).1 = sent ++ request :: more ∧
    length more ≤ 2 ∧
    Forall (λ r, req_method r = POST ∧ req_headers r = headers self) more.
Proof.
  intros request response title both. subst both.
  rewrite run_bind, get_trade_info_run. cbv zeta.
  fold request response title.
  destruct (PyStr.split 47 (url_path response) !! 2%nat) as [id_|].
  - split; [done|].
    destruct (bump_run_shape self (mkTradeInfo id_ title (resp_text response))
                srv (sent ++ [request]))
      as [(e & -> & _)
         |[(code & xsrf_token & e & -> & _)|(code & xsrf_token & b & ->)]];
      cbn [fst]; rewrite <- ?app_assoc; cbn [app].
    + exists []. split; [done|]. split; [cbn; lia|constructor].
    + eexists [_]. split; [done|]. split; [cbn; lia|by repeat constructor].
    + eexists [_; _]. split; [done|]. split; [cbn; lia|by repeat constructor].
  - split; [done|]. exists []. split; [done|]. split; [cbn; lia|constructor].
Qed.
